(** * Verification of the Play Store review pipeline

    Two scripts of the repository are embedded here, in four parts.

    - [Ingestion]: [scripts/01_data_ingestion.py], the cleaning of the review
      table ([PlayStoreDataIngestion.clean_dataframe] and [add_features]),
      over a store of DataFrame objects so that aliasing is visible.
    - [Cleaning]: the table that [clean_dataframe] returns as a function of
      the table it is given, and the exceptions it raises.
    - [Statistics]: [scripts/02_statistical_analysis.py], the labels and
      verdicts it derives from the statistics.
    - [Pipeline]: the other methods of [scripts/01_data_ingestion.py], as
      sequences of calls to the outside world. *)

From stdpp Require Import strings list relations.
From Stdlib Require Import QArith.
Close Scope Q_scope.

(** * Part I: data ingestion *)

Module Ingestion.

(** ** Values *)

(** A float as pandas holds it in a numeric column.  Only comparisons with
    the exactly representable bounds of the script are made, so a finite
    float is taken as the rational it denotes. *)
Inductive Number := Fin (q : Q) | PosInf | NegInf.

(** One cell of a table.  [NaN] stands for every missing value, [NaT]
    included.  A Python [str] is held as the string of the bytes of its
    UTF-8 encoding, and a timestamp as the integer that a [datetime64]
    holds. *)
Inductive Cell :=
  | NaN
  | Str (s : string)
  | Num (x : Number)
  | Timestamp (t : Z).

(** The dtype of a column; a categorical one has its categories. *)
Inductive Dtype := DObject | DNumeric | DCategory (categories : list Cell) | DDatetime.

Record Series := mkSeries { dtype : Dtype; values : list Cell }.

(** A DataFrame is the ordered list of its labelled columns; pandas allows a
    label to occur more than once. *)
Abbreviation DataFrame := (list (string * Series)).

Inductive Exn := ValueError | KeyError | AttributeError | TypeError | ReferenceError.

Inductive Res (A : Type) := Ok (a : A) | Raise (e : Exn).
Arguments Ok {A} a.
Arguments Raise {A} e.

(** ** The Python and pandas primitives the script calls *)

(** String methods and the float parser of [pd.to_numeric] are library code:
    the script is verified for any implementation of them. *)
Class PyLib := {
  str_strip : string → string;
  str_title : string → string;
  str_split : string → list string;
  to_float : string → option Number
}.

Definition num_leb (a b : Number) : bool :=
  match a, b with
  | NegInf, _ => true
  | _, PosInf => true
  | Fin p, Fin q => Qle_bool p q
  | _, _ => false
  end.

Definition num_ltb (a b : Number) : bool := negb (num_leb b a).

Definition of_nat (n : nat) : Number := Fin (inject_Z (Z.of_nat n)).

Definition notna (c : Cell) : bool :=
  match c with NaN => false | _ => true end.

(** A byte [10xxxxxx] continues the encoding of a code point. *)
Definition continuation (b : Ascii.ascii) : bool :=
  let n := Ascii.nat_of_ascii b in (128 <=? n) && (n <? 192).

(** [len(s)], the number of code points of a [str]: of the bytes of its
    encoding, those that start one. *)
Fixpoint len (s : string) : nat :=
  match s with
  | EmptyString => 0
  | String b s' => if continuation b then len s' else S (len s')
  end.

(** [s.str.len()], cell by cell: a value that is not a string gives NaN. *)
Definition str_len (c : Cell) : Cell :=
  match c with Str s => Num (of_nat (len s)) | _ => NaN end.

(** [series >= k] and [series <= k]: a comparison with NaN is False. *)
Definition cell_ge (k : Number) (c : Cell) : bool :=
  match c with Num x => num_leb k x | _ => false end.

Definition cell_le (k : Number) (c : Cell) : bool :=
  match c with Num x => num_leb x k | _ => false end.

Definition isin (l : list string) (c : Cell) : bool :=
  match c with Str s => bool_decide (s ∈ l) | _ => false end.

(** [pd.cut(x, bins, labels)]: the label of the right-closed interval
    [(lo, hi]] that holds [x], NaN outside every interval. *)
Fixpoint cut (bins : list Number) (labels : list string) (x : Number) : Cell :=
  match bins, labels with
  | lo :: (hi :: _) as rest, lab :: labs =>
      if num_ltb lo x && num_leb x hi then Str lab else cut rest labs x
  | _, _ => NaN
  end.

Definition cut_cell (bins : list Number) (labels : list string) (c : Cell) : Cell :=
  match c with Num x => cut bins labels x | _ => NaN end.

(** [series.map(dict)]: a key that is absent gives NaN. *)
Definition map_dict (d : list (string * Number)) (c : Cell) : Cell :=
  match c with
  | Str s => match list_find (λ kv, kv.1 = s) d with
             | Some (_, kv) => Num kv.2
             | None => NaN
             end
  | _ => NaN
  end.

Definition smap (f : Cell → Cell) (d : Dtype) (s : Series) : Series :=
  mkSeries d (f <$> values s).

(** [pd.cut(series, bins, labels)] on a numeric column: a categorical
    column, the labels its categories. *)
Definition cut_series (bins : list Number) (labels : list string) (s : Series) : Series :=
  smap (cut_cell bins labels) (DCategory (Str <$> labels)) s.

Definition is_str (c : Cell) : bool := match c with Str _ => true | _ => false end.
Definition is_num (c : Cell) : bool := match c with Num _ => true | _ => false end.
Definition is_time (c : Cell) : bool := match c with Timestamp _ => true | _ => false end.

(** Whether [.str] takes the values: [lib.infer_dtype(values, skipna=True)]
    is then "empty" (nothing but missing values), "string", or one of
    "mixed" and "mixed-integer" (a string among them, or values of two
    kinds); values that are all numbers, or all timestamps, are refused. *)
Definition str_values (l : list Cell) : bool :=
  forallb (λ c, negb (notna c)) l
  || existsb is_str l
  || (existsb is_num l && existsb is_time l).

(** The [.str] accessor: it looks at the values of an object column and at
    the categories of a categorical one, and exists on no other column. *)
Definition str_accessor (s : Series) : Res Series :=
  match dtype s with
  | DObject => if str_values (values s) then Ok s else Raise AttributeError
  | DCategory categories => if str_values categories then Ok s else Raise AttributeError
  | DNumeric | DDatetime => Raise AttributeError
  end.

Section Primitives.
Context `{PyLib}.

(** [pd.to_numeric(..., errors='coerce')] on one object: a number stays, a
    string is parsed, anything else is coerced to NaN. *)
Definition to_numeric_cell (c : Cell) : Cell :=
  match c with
  | Num x => Num x
  | Str s => match to_float s with Some x => Num x | None => NaN end
  | _ => NaN
  end.

(** [NaT] seen as an integer. *)
Definition iNaT : Z := - 2 ^ 63.

(** A [datetime64] seen as the integer it holds. *)
Definition datetime_view (c : Cell) : Cell :=
  match c with
  | Timestamp t => Num (Fin (inject_Z t))
  | NaN => Num (Fin (inject_Z iNaT))
  | c => to_numeric_cell c
  end.

(** [pd.to_numeric(series, errors='coerce')]: a numeric column is returned
    as it is, a [datetime64] column is viewed as integers, and the values
    of any other column are converted one by one. *)
Definition to_numeric (s : Series) : Series :=
  match dtype s with
  | DNumeric => s
  | DDatetime => mkSeries DNumeric (datetime_view <$> values s)
  | DObject | DCategory _ => mkSeries DNumeric (to_numeric_cell <$> values s)
  end.

Definition strip_title (c : Cell) : Cell :=
  match c with Str s => Str (str_title (str_strip s)) | _ => NaN end.

Definition word_count (c : Cell) : Cell :=
  match c with Str s => Num (of_nat (length (str_split s))) | _ => NaN end.

End Primitives.

(** ** DataFrame operations, on values *)

Definition columns (d : DataFrame) : list string := d.*1.

Definition named (name : string) (d : DataFrame) : list Series :=
  (filter (λ c, c.1 = name) d).*2.

(** [df[name]] used as a Series: with a repeated label pandas hands back a
    DataFrame, on which the Series operation that follows raises [e]. *)
Definition getitem (name : string) (e : Exn) (d : DataFrame) : Res Series :=
  match named name d with
  | [s] => Ok s
  | [] => Raise KeyError
  | _ => Raise e
  end.

Definition nrows (d : DataFrame) : nat :=
  match d with [] => 0 | c :: _ => length (values c.2) end.

Fixpoint mask_list {A} (m : list bool) (l : list A) : list A :=
  match m, l with
  | b :: m', x :: l' => if b then x :: mask_list m' l' else mask_list m' l'
  | _, _ => []
  end.

(** [df[mask]]: the rows where the mask holds. *)
Definition take_rows (m : list bool) (d : DataFrame) : DataFrame :=
  (λ c, (c.1, mkSeries (dtype c.2) (mask_list m (values c.2)))) <$> d.

(** [df.dropna(subset=[name])]. *)
Definition dropna (name : string) (d : DataFrame) : Res DataFrame :=
  match (λ s, notna <$> values s) <$> named name d with
  | [] => Raise KeyError
  | m :: ms => Ok (take_rows (foldl (zip_with andb) m ms) d)
  end.

(** [df.rename(columns={old: new})]. *)
Definition rename_columns (old new : string) (d : DataFrame) : DataFrame :=
  (λ c, (if decide (c.1 = old) then new else c.1, c.2)) <$> d.

(** [df[name] = series]: replaces the column in place, or appends it. *)
Definition set_column (name : string) (s : Series) (d : DataFrame) : DataFrame :=
  if decide (name ∈ columns d)
  then (λ c, if decide (c.1 = name) then (name, s) else c) <$> d
  else d ++ [(name, s)].

(** ** The object store *)

(** Python variables hold references.  An object lives at an index of the
    store; creating one appends it, and item assignment updates it in place. *)
Abbreviation loc := nat.
Abbreviation Heap := (list DataFrame).
Definition Py (A : Type) : Type := Heap → Res A * Heap.

Definition ret {A} (a : A) : Py A := λ h, (Ok a, h).
Definition raise {A} (e : Exn) : Py A := λ h, (Raise e, h).
Definition bind {A B} (m : Py A) (k : A → Py B) : Py B :=
  λ h, match m h with
       | (Ok a, h') => k a h'
       | (Raise e, h') => (Raise e, h')
       end.
Definition lift {A} (r : Res A) : Py A := λ h, (r, h).

Notation "x <- m ;; k" := (bind m (λ x, k))
  (at level 100, m at next level, right associativity).
Notation "m ;;; k" := (bind m (λ _, k))
  (at level 100, right associativity).

Definition alloc (d : DataFrame) : Py loc := λ h, (Ok (length h), h ++ [d]).

Definition load (r : loc) : Py DataFrame :=
  λ h, match h !! r with
       | Some d => (Ok d, h)
       | None => (Raise ReferenceError, h)
       end.

Definition store (r : loc) (d : DataFrame) : Py unit :=
  λ h, (Ok tt, <[r := d]> h).

(** Methods that build a new DataFrame. *)
Definition copy (r : loc) : Py loc := d <- load r ;; alloc d.

Definition rename (r : loc) (old new : string) : Py loc :=
  d <- load r ;; alloc (rename_columns old new d).

Definition dropna_subset (r : loc) (name : string) : Py loc :=
  d <- load r ;; d' <- lift (dropna name d) ;; alloc d'.

Definition getitem_mask (r : loc) (m : list bool) : Py loc :=
  d <- load r ;; alloc (take_rows m d).

(** Item assignment mutates the object. *)
Definition setitem (r : loc) (name : string) (s : Series) : Py unit :=
  d <- load r ;; store r (set_column name s d).

(** [df[name] = scalar] fills every row. *)
Definition setitem_scalar (r : loc) (name : string) (ty : Dtype) (c : Cell) : Py unit :=
  d <- load r ;; store r (set_column name (mkSeries ty (replicate (nrows d) c)) d).

Definition series (r : loc) (name : string) (e : Exn) : Py Series :=
  d <- load r ;; lift (getitem name e d).

(** [df[name].str]. *)
Definition series_str (r : loc) (name : string) : Py Series :=
  s <- series r name AttributeError ;; lift (str_accessor s).

(** ** The script *)

Section Script.
Context `{PyLib}.

(** [datetime.now()] at the call. *)
Variable now : Z.

Definition inf : Number := PosInf.
Definition int (n : nat) : Number := of_nat n.

(** [add_features(self, df)]: assigns five columns to the object it is
    given and returns that same object. *)
Definition add_features (df : loc) : Py loc :=
  (* Review length (character count) *)
  review_text <- series_str df "review_text" ;;
  setitem df "review_length" (smap str_len DNumeric review_text) ;;;
  (* Review word count *)
  review_text <- series_str df "review_text" ;;
  setitem df "review_word_count" (smap word_count DNumeric review_text) ;;;
  (* Review length categories *)
  review_length <- series df "review_length" ValueError ;;
  setitem df "review_length_category"
    (cut_series [int 0; int 50; int 150; int 500; inf]
                ["Short"; "Medium"; "Long"; "Very Long"] review_length) ;;;
  (* Rating categories *)
  rating <- series df "rating" ValueError ;;
  setitem df "rating_category"
    (cut_series [int 0; int 2; int 3; int 4; int 5]
                ["Poor"; "Fair"; "Good"; "Excellent"] rating) ;;;
  (* Binary sentiment (for statistical testing) *)
  sentiment <- series df "sentiment" TypeError ;;
  setitem df "sentiment_binary"
    (smap (map_dict [("Positive", Fin 1); ("Negative", Fin 0); ("Neutral", Fin (1 # 2))])
          DNumeric sentiment) ;;;
  ret df.

Definition column_mapping : list (string * string) :=
  [ ("Translated_Review", "review_text");
    ("translated_review", "review_text");
    ("Review", "review_text");
    ("review", "review_text");
    ("Sentiment", "sentiment");
    ("sentiment", "sentiment");
    ("Rating", "rating");
    ("rating", "rating");
    ("Star", "rating");
    ("star", "rating");
    ("App", "app_name");
    ("app", "app_name");
    ("App_Name", "app_name") ].

Definition required_columns : list string := ["review_text"; "sentiment"; "rating"].

Definition valid_sentiments : list string := ["Positive"; "Negative"; "Neutral"].

(** The loop [for old_name, new_name in column_mapping.items()]: the
    variable [df_clean] is rebound to the renamed copy. *)
Fixpoint rename_loop (mapping : list (string * string)) (df_clean : loc) : Py loc :=
  match mapping with
  | [] => ret df_clean
  | (old_name, new_name) :: rest =>
      d <- load df_clean ;;
      if decide (old_name ∈ columns d)
      then (df_clean <- rename df_clean old_name new_name ;; rename_loop rest df_clean)
      else rename_loop rest df_clean
  end.

(** [clean_dataframe(self, df)]. *)
Definition clean_dataframe (df : loc) : Py loc :=
  (* Make a copy to avoid modifying original *)
  df_clean <- copy df ;;
  (* Rename columns if they exist *)
  df_clean <- rename_loop column_mapping df_clean ;;
  (* Ensure we have the required columns *)
  d <- load df_clean ;;
  let missing_columns := filter (λ col, col ∉ columns d) required_columns in
  if decide (missing_columns = []) then
    (* Remove rows with missing review text *)
    df_clean <- dropna_subset df_clean "review_text" ;;
    (* Remove empty or very short reviews (less than 3 characters) *)
    review_text <- series_str df_clean "review_text" ;;
    df_clean <- getitem_mask df_clean
                  ((λ c, cell_ge (int 3) (str_len c)) <$> values review_text) ;;
    (* Clean rating column *)
    rating <- series df_clean "rating" TypeError ;;
    setitem df_clean "rating" (to_numeric rating) ;;;
    df_clean <- dropna_subset df_clean "rating" ;;
    rating <- series df_clean "rating" TypeError ;;
    df_clean <- getitem_mask df_clean
                  ((λ c, cell_ge (int 1) c && cell_le (int 5) c) <$> values rating) ;;
    (* Clean sentiment column *)
    sentiment <- series_str df_clean "sentiment" ;;
    setitem df_clean "sentiment" (smap strip_title DObject sentiment) ;;;
    sentiment <- series df_clean "sentiment" AttributeError ;;
    df_clean <- getitem_mask df_clean (isin valid_sentiments <$> values sentiment) ;;
    (* Add additional features *)
    df_clean <- add_features df_clean ;;
    (* Add metadata columns *)
    setitem_scalar df_clean "ingestion_timestamp" DDatetime (Timestamp now) ;;;
    setitem_scalar df_clean "data_source" DObject (Str "kaggle_google_play_store") ;;;
    ret df_clean
  else raise ValueError.

End Script.

(** ** Columns under the DataFrame operations *)

Lemma str_accessor_ok s s' : str_accessor s = Ok s' → s' = s.
Proof.
  unfold str_accessor. destruct (dtype s) as [| |categories|]; [|done| |done].
  - destruct (str_values (values s)); by intros [= ->].
  - destruct (str_values categories); by intros [= ->].
Qed.

Lemma named_cons name n s d :
  named name ((n, s) :: d) = if decide (n = name) then s :: named name d else named name d.
Proof. unfold named. rewrite filter_cons. cbn [fst]. by destruct (decide (n = name)). Qed.

Lemma named_take_rows name m d :
  named name (take_rows m d)
  = (λ s, mkSeries (dtype s) (mask_list m (values s))) <$> named name d.
Proof.
  unfold take_rows. induction d as [|[n s] d IH]; [done|].
  rewrite fmap_cons. cbn [fst snd]. rewrite !named_cons.
  destruct (decide (n = name)); rewrite ?fmap_cons, IH; done.
Qed.

Lemma named_replace name n s d :
  named name ((λ c : string * Series, if decide (c.1 = n) then (n, s) else c) <$> d)
  = if decide (name = n) then (λ _, s) <$> named name d else named name d.
Proof.
  induction d as [|[n' s'] d IH]; [by destruct (decide (name = n))|].
  rewrite fmap_cons. cbn [fst snd].
  destruct (decide (n' = n)); rewrite !named_cons, IH;
    repeat case_decide; simplify_eq; rewrite ?fmap_cons; done.
Qed.

Lemma named_nil name d : name ∉ columns d → named name d = [].
Proof.
  unfold columns. induction d as [|[n s] d IH]; [done|].
  rewrite fmap_cons, not_elem_of_cons. cbn [fst snd]. intros [? ?].
  rewrite named_cons, decide_False by done. auto.
Qed.

Lemma named_set_column_ne name n s d :
  name ≠ n → named name (set_column n s d) = named name d.
Proof.
  intros Hne. unfold set_column. destruct (decide (n ∈ columns d)).
  - rewrite named_replace. by rewrite decide_False.
  - unfold named. rewrite filter_app, fmap_app.
    change ((filter (λ c : string * Series, c.1 = name) [(n, s)]).*2) with (named name [(n, s)]).
    rewrite named_cons, decide_False by done. apply app_nil_r.
Qed.

Lemma named_set_column_eq n s x d :
  named n d = [x] → named n (set_column n s d) = [s].
Proof.
  intros Hx. unfold set_column. destruct (decide (n ∈ columns d)) as [|Hn].
  - rewrite named_replace, decide_True by done. by rewrite Hx.
  - by rewrite named_nil in Hx.
Qed.

Lemma getitem_named name e d s : getitem name e d = Ok s → named name d = [s].
Proof.
  unfold getitem. destruct (named name d) as [|x [|y l]]; [done| |done].
  by intros [= ->].
Qed.

Lemma dropna_take_rows name d d' :
  dropna name d = Ok d' → ∃ m, d' = take_rows m d.
Proof.
  unfold dropna. destruct (_ <$> named name d) as [|m ms]; [done|].
  intros [= <-]. eauto.
Qed.

Lemma Forall_mask_list {A} (P : A → Prop) m (l : list A) :
  Forall P l → Forall P (mask_list m l).
Proof.
  intros Hl. revert m. induction Hl as [|x l Hx Hl IH]; intros [|[] m]; simpl; auto.
Qed.

Lemma Forall_mask_map {A} (P : A → Prop) (p : A → bool) (l : list A) :
  (∀ x, p x = true → P x) → Forall P (mask_list (p <$> l) l).
Proof.
  intros Hp. induction l as [|x l IH]; [done|].
  rewrite fmap_cons. cbn [mask_list]. destruct (p x) eqn:Hx; auto.
Qed.

(** [col ok name d]: the table has one column [name], and every cell of it
    satisfies [ok]. *)
Definition col (ok : Cell → Prop) (name : string) (d : DataFrame) : Prop :=
  ∃ s, named name d = [s] ∧ Forall ok (values s).

Lemma col_take_rows ok name m d : col ok name d → col ok name (take_rows m d).
Proof.
  intros (s & Hs & Hok). eexists. rewrite named_take_rows, Hs. split; [done|].
  simpl. by apply Forall_mask_list.
Qed.

Lemma col_set_column_ne ok name n s d :
  name ≠ n → col ok name d → col ok name (set_column n s d).
Proof. intros Hne (x & Hx & Hok). exists x. by rewrite named_set_column_ne. Qed.

Lemma col_select ok name (p : Cell → bool) s d :
  named name d = [s] → (∀ c, p c = true → ok c) →
  col ok name (take_rows (p <$> values s) d).
Proof.
  intros Hs Hp. eexists. rewrite named_take_rows, Hs. split; [done|].
  simpl. by apply Forall_mask_map.
Qed.

Lemma col_dropna ok name n d d' :
  dropna n d = Ok d' → col ok name d → col ok name d'.
Proof. intros [m ->]%dropna_take_rows. apply col_take_rows. Qed.

(** ** A program logic for the store *)

(** [triple P m Q E]: from a store in [P], [m] ends in [Q] when it returns
    and in [E] when it raises. *)
Definition triple {A} (P : Heap → Prop) (m : Py A)
    (Q : A → Heap → Prop) (E : Heap → Prop) : Prop :=
  ∀ h, P h → match m h with (Ok a, h') => Q a h' | (Raise _, h') => E h' end.

Lemma triple_ret {A} (P : Heap → Prop) (a : A) (Q : A → Heap → Prop) E :
  (∀ h, P h → Q a h) → triple P (ret a) Q E.
Proof. intros HQ h HP. simpl. auto. Qed.

Lemma triple_raise {A} (P : Heap → Prop) e (Q : A → Heap → Prop) (E : Heap → Prop) :
  (∀ h, P h → E h) → triple P (raise e) Q E.
Proof. intros HE h HP. simpl. auto. Qed.

Lemma triple_lift {A} (P : Heap → Prop) (r : Res A) (Q : A → Heap → Prop) (E : Heap → Prop) :
  (∀ h, P h → match r with Ok a => Q a h | Raise _ => E h end) →
  triple P (lift r) Q E.
Proof. intros Hr h HP. specialize (Hr h HP). unfold lift. by destruct r. Qed.

Lemma triple_bind {A B} (P : Heap → Prop) (m : Py A) (k : A → Py B)
    (Q : A → Heap → Prop) (R : B → Heap → Prop) (E : Heap → Prop) :
  triple P m Q E → (∀ a, triple (Q a) (k a) R E) → triple P (bind m k) R E.
Proof.
  intros Hm Hk h HP. specialize (Hm h HP). unfold bind.
  destruct (m h) as [[a|e] h']; [by apply Hk | done].
Qed.

Lemma triple_conseq {A} (P P' : Heap → Prop) (m : Py A)
    (Q Q' : A → Heap → Prop) (E : Heap → Prop) :
  triple P m Q E → (∀ h, P' h → P h) → (∀ a h, Q a h → Q' a h) →
  triple P' m Q' E.
Proof.
  intros Hm HP HQ h Hh. specialize (Hm h (HP h Hh)).
  destruct (m h) as [[a|e] h']; auto.
Qed.

Lemma triple_pure {A} (φ : Prop) (P : Heap → Prop) (m : Py A)
    (Q : A → Heap → Prop) (E : Heap → Prop) :
  (φ → triple P m Q E) → triple (λ h, φ ∧ P h) m Q E.
Proof. intros Hm h [Hφ HP]. by apply Hm. Qed.

Lemma triple_exists {A X} (P : X → Heap → Prop) (m : Py A)
    (Q : A → Heap → Prop) (E : Heap → Prop) :
  (∀ x, triple (P x) m Q E) → triple (λ h, ∃ x, P x h) m Q E.
Proof. intros Hm h [x HP]. by apply (Hm x). Qed.

Section Frame.

(** The store at the call. *)
Variable h0 : Heap.

(** Every object of the caller is still there, unchanged. *)
Definition keeps (h : Heap) : Prop := h0 `prefix_of` h.

(** [r] is an object made since the call and holds [d]. *)
Definition pt (r : loc) (d : DataFrame) (h : Heap) : Prop :=
  keeps h ∧ length h0 ≤ r ∧ h !! r = Some d.

Lemma pt_keeps r d h : pt r d h → keeps h.
Proof. by intros [? _]. Qed.

Lemma alloc_spec d :
  triple keeps (alloc d) (λ r h, pt r d h) keeps.
Proof.
  intros h [k ->]. simpl. split; [|split].
  - exists (k ++ [d]). by rewrite app_assoc.
  - rewrite length_app. lia.
  - rewrite lookup_app_r by lia. by rewrite Nat.sub_diag.
Qed.

Lemma load_spec r d :
  triple (pt r d) (load r) (λ x h, x = d ∧ pt r d h) keeps.
Proof. intros h Hpt. unfold load. destruct Hpt as (?&?&Hl). rewrite Hl. by repeat split. Qed.

Lemma load_any_spec r :
  triple keeps (load r) (λ _ h, keeps h) keeps.
Proof. intros h Hk. unfold load. by destruct (h !! r). Qed.

Lemma store_spec r d d' :
  triple (pt r d) (store r d') (λ _ h, pt r d' h) keeps.
Proof.
  intros h ([k ->]&Hr&Hl). simpl.
  assert (r < length (h0 ++ k)) by (by eapply lookup_lt_Some).
  split; [|split; [done|]].
  - exists (<[r - length h0 := d']> k). by rewrite insert_app_r_alt.
  - by rewrite list_lookup_insert_eq.
Qed.

Lemma copy_spec r :
  triple keeps (copy r) (λ r' h, ∃ d, pt r' d h) keeps.
Proof.
  eapply triple_bind; [apply load_any_spec|]. intros d.
  eapply triple_conseq; [apply alloc_spec|done|]. intros; by exists d.
Qed.

(** A method that reads [r] and builds a new object from what it holds. *)
Lemma derive_spec r d (f : DataFrame → Res DataFrame) :
  triple (pt r d) (d1 <- load r ;; d2 <- lift (f d1) ;; alloc d2)
         (λ r' h, ∃ d', f d = Ok d' ∧ pt r' d' h) keeps.
Proof.
  eapply triple_bind; [apply load_spec|]. intros d1.
  apply triple_pure; intros ->.
  eapply triple_bind.
  - apply (triple_lift _ _ (λ d2 h, f d = Ok d2 ∧ keeps h)).
    intros h Hpt. destruct (f d); [split; [done|] |]; by eapply pt_keeps.
  - intros d2. apply triple_pure; intros Hf.
    eapply triple_conseq; [apply alloc_spec|done|]. intros; by exists d2.
Qed.

Lemma rename_spec r d old new :
  triple (pt r d) (rename r old new) (λ r' h, pt r' (rename_columns old new d) h) keeps.
Proof.
  eapply triple_bind; [apply load_spec|]. intros d1.
  apply triple_pure; intros ->.
  eapply triple_conseq; [apply alloc_spec| |done]. apply pt_keeps.
Qed.

Lemma dropna_subset_spec r d name :
  triple (pt r d) (dropna_subset r name)
         (λ r' h, ∃ d', dropna name d = Ok d' ∧ pt r' d' h) keeps.
Proof. apply derive_spec. Qed.

Lemma getitem_mask_spec r d m :
  triple (pt r d) (getitem_mask r m) (λ r' h, pt r' (take_rows m d) h) keeps.
Proof.
  eapply triple_bind; [apply load_spec|]. intros d1.
  apply triple_pure; intros ->.
  eapply triple_conseq; [apply alloc_spec| |done]. apply pt_keeps.
Qed.

Lemma setitem_spec r d name s :
  triple (pt r d) (setitem r name s) (λ _ h, pt r (set_column name s d) h) keeps.
Proof.
  eapply triple_bind; [apply load_spec|]. intros d1.
  apply triple_pure; intros ->. apply store_spec.
Qed.

Lemma setitem_scalar_spec r d name ty c :
  triple (pt r d) (setitem_scalar r name ty c)
         (λ _ h, pt r (set_column name (mkSeries ty (replicate (nrows d) c)) d) h) keeps.
Proof.
  eapply triple_bind; [apply load_spec|]. intros d1.
  apply triple_pure; intros ->. apply store_spec.
Qed.

Lemma series_spec r d name e :
  triple (pt r d) (series r name e)
         (λ s h, getitem name e d = Ok s ∧ pt r d h) keeps.
Proof.
  eapply triple_bind; [apply load_spec|]. intros d1.
  apply triple_pure; intros ->.
  apply triple_lift. intros h Hpt.
  destruct (getitem name e d); [done | by eapply pt_keeps].
Qed.

Lemma series_str_spec r d name :
  triple (pt r d) (series_str r name)
         (λ s h, getitem name AttributeError d = Ok s ∧ pt r d h) keeps.
Proof.
  eapply triple_bind; [apply series_spec|]. intros s.
  apply triple_pure; intros Hs.
  apply triple_lift. intros h Hpt.
  destruct (str_accessor s) as [s'|e] eqn:Ha; [|by eapply pt_keeps].
  by apply str_accessor_ok in Ha as ->.
Qed.

End Frame.

(** ** What the cleaning guarantees *)

Definition review_ok (c : Cell) : Prop :=
  ∃ s, c = Str s ∧ 3 ≤ len s.

Definition rating_ok (c : Cell) : Prop :=
  ∃ q, c = Num (Fin q) ∧ (1 <= q)%Q ∧ (q <= 5)%Q.

Definition sentiment_ok (c : Cell) : Prop :=
  ∃ s, c = Str s ∧ s ∈ ["Positive"; "Negative"; "Neutral"].

Lemma select_review c : cell_ge (of_nat 3) (str_len c) = true → review_ok c.
Proof.
  destruct c as [|s|x|t]; try done. cbn. intros Hle%Qle_bool_iff.
  exists s. split; [done|]. rewrite <- Zle_Qle in Hle. lia.
Qed.

Lemma select_rating c :
  cell_ge (of_nat 1) c && cell_le (of_nat 5) c = true → rating_ok c.
Proof.
  destruct c as [|s|[q| |]|t]; try done; cbn.
  intros [H1%Qle_bool_iff H5%Qle_bool_iff]%andb_true_iff. by exists q.
Qed.

Lemma select_sentiment c : isin ["Positive"; "Negative"; "Neutral"] c = true → sentiment_ok c.
Proof.
  destruct c as [|s|x|t]; try done. cbn. intros Hs%bool_decide_eq_true. by exists s.
Qed.

Definition cleaned (d : DataFrame) : Prop :=
  col review_ok "review_text" d ∧ col rating_ok "rating" d ∧ col sentiment_ok "sentiment" d.

Definition feature_columns : list string :=
  ["review_length"; "review_word_count"; "review_length_category";
   "rating_category"; "sentiment_binary"].

Section Correctness.
Context `{PyLib}.
Variable now : Z.
Variable h0 : Heap.

Ltac step lem := eapply triple_bind; [apply lem|]; intros ?.
Ltac pure := apply triple_pure; intros ?.

Lemma rename_loop_spec mapping r d :
  triple (pt h0 r d) (rename_loop mapping r) (λ r' h, ∃ d', pt h0 r' d' h) (keeps h0).
Proof.
  revert r d. induction mapping as [|[old new] rest IH]; intros r d.
  - apply triple_ret. eauto.
  - cbn [rename_loop]. step load_spec. pure. subst.
    destruct (decide _).
    + step rename_spec. apply IH.
    + apply IH.
Qed.

Lemma add_features_spec r d :
  triple (pt h0 r d) (add_features r)
    (λ r' h, r' = r ∧ ∃ d',
       (∀ name, name ∉ feature_columns → named name d' = named name d) ∧
       pt h0 r d' h)
    (keeps h0).
Proof.
  unfold add_features.
  step series_str_spec. pure. step setitem_spec.
  step series_str_spec. pure. step setitem_spec.
  step series_spec. pure. step setitem_spec.
  step series_spec. pure. step setitem_spec.
  step series_spec. pure. step setitem_spec.
  apply triple_ret. intros h Hpt. split; [done|]. eexists. split; [|exact Hpt].
  intros name Hn. unfold feature_columns in Hn.
  rewrite !not_elem_of_cons in Hn. destruct Hn as (?&?&?&?&?&_).
  by rewrite !named_set_column_ne.
Qed.

Lemma col_named ok name d d' :
  named name d' = named name d → col ok name d → col ok name d'.
Proof. intros Heq (s & Hs & Hok). exists s. by rewrite Heq. Qed.

Lemma clean_dataframe_spec df :
  triple (keeps h0) (clean_dataframe now df)
         (λ r h, ∃ d, cleaned d ∧ pt h0 r d h) (keeps h0).
Proof.
  unfold clean_dataframe.
  step copy_spec. apply triple_exists; intros d1.
  step rename_loop_spec. apply triple_exists; intros d2.
  step load_spec. pure. subst.
  destruct (decide _); [|apply triple_raise, pt_keeps].
  step dropna_subset_spec. apply triple_exists; intros d3. apply triple_pure; intros Hd3.
  step series_str_spec. apply triple_pure; intros Hrev%getitem_named.
  step getitem_mask_spec.
  pose proof (col_select review_ok _ _ _ _ Hrev select_review) as Hc1.
  step series_spec. apply triple_pure; intros Hrat.
  step setitem_spec.
  step dropna_subset_spec. apply triple_exists; intros d5. apply triple_pure; intros Hd5.
  step series_spec. apply triple_pure; intros Hrat2%getitem_named.
  step getitem_mask_spec.
  pose proof (col_select rating_ok _ _ _ _ Hrat2 select_rating) as Hc2.
  step series_str_spec. apply triple_pure; intros Hsen.
  step setitem_spec.
  step series_spec. apply triple_pure; intros Hsen2%getitem_named.
  step getitem_mask_spec.
  pose proof (col_select sentiment_ok _ _ _ _ Hsen2 select_sentiment) as Hc3.
  step add_features_spec. pure. subst. apply triple_exists; intros d9.
  apply triple_pure; intros Hfeat.
  step setitem_scalar_spec. step setitem_scalar_spec.
  apply triple_ret. intros h Hpt. eexists. split; [|exact Hpt].
  assert (∀ name, name ∈ required_columns → name ∉ feature_columns) as Hreq.
  { intros x Hin. unfold required_columns, feature_columns in *.
    rewrite !elem_of_cons in Hin. rewrite !not_elem_of_cons.
    destruct Hin as [->|[->|[->|Hin]]]; [..|by apply not_elem_of_nil in Hin];
      repeat split; (discriminate || apply not_elem_of_nil). }
  repeat split.
  - do 2 (apply col_set_column_ne; [done|]).
    eapply col_named; [apply Hfeat, Hreq; unfold required_columns; rewrite !elem_of_cons; auto|].
    apply col_take_rows, col_set_column_ne; [done|].
    apply col_take_rows. eapply col_dropna; [exact Hd5|].
    by apply col_set_column_ne.
  - do 2 (apply col_set_column_ne; [done|]).
    eapply col_named; [apply Hfeat, Hreq; unfold required_columns; rewrite !elem_of_cons; auto|].
    apply col_take_rows, col_set_column_ne; [done|]. exact Hc2.
  - do 2 (apply col_set_column_ne; [done|]).
    eapply col_named; [apply Hfeat, Hreq; unfold required_columns; rewrite !elem_of_cons; auto|]. exact Hc3.
Qed.

End Correctness.

(** Row [i] of a table: the labelled cells at that index. *)
Definition row (d : DataFrame) (i : nat) : list (string * Cell) :=
  omap (λ c, (λ v, (c.1, v)) <$> values c.2 !! i) d.

Lemma elem_of_row name c d i :
  (name, c) ∈ row d i → ∃ s, s ∈ named name d ∧ values s !! i = Some c.
Proof.
  unfold row. rewrite list_elem_of_omap. intros ([n s] & Hin & Hc).
  cbn [fst snd] in Hc. destruct (values s !! i) as [v|] eqn:Hv; [|done].
  injection Hc as -> ->. exists s. split; [|done].
  unfold named. apply list_elem_of_fmap. exists (name, s). split; [done|].
  by apply list_elem_of_filter.
Qed.

Lemma col_row ok name c d i : col ok name d → (name, c) ∈ row d i → ok c.
Proof.
  intros (s & Hs & Hok) (s' & Hin & Hc)%elem_of_row.
  rewrite Hs in Hin. apply list_elem_of_singleton in Hin as ->.
  rewrite Forall_forall in Hok. apply Hok. by eapply list_elem_of_lookup_2.
Qed.

(** The store after a call holds every object it held before, unchanged. *)
Lemma clean_dataframe_frame `{PyLib} now df h :
  h `prefix_of` (clean_dataframe now df h).2.
Proof.
  pose proof (clean_dataframe_spec now h df h) as Hs.
  destruct (clean_dataframe now df h) as [[r|e] h']; cbn [snd].
  - by destruct Hs as (d & _ & Hk & _).
  - by apply Hs.
Qed.

(** ** An instance of the library for 7-bit text *)

Fixpoint drop_space (s : string) : string :=
  match s with
  | String c s' => if Ascii.is_space c then drop_space s' else s
  | EmptyString => EmptyString
  end.

Definition ascii_strip (s : string) : string :=
  String.rev (drop_space (String.rev (drop_space s))).

Definition is_lower (c : Ascii.ascii) : bool :=
  let n := Ascii.nat_of_ascii c in (97 <=? n) && (n <=? 122).

Definition is_upper (c : Ascii.ascii) : bool :=
  let n := Ascii.nat_of_ascii c in (65 <=? n) && (n <=? 90).

Definition to_upper (c : Ascii.ascii) : Ascii.ascii :=
  if is_lower c then Ascii.ascii_of_nat (Ascii.nat_of_ascii c - 32) else c.

Definition to_lower (c : Ascii.ascii) : Ascii.ascii :=
  if is_upper c then Ascii.ascii_of_nat (Ascii.nat_of_ascii c + 32) else c.

Fixpoint title_from (cased : bool) (s : string) : string :=
  match s with
  | String c s' =>
      String (if cased then to_lower c else to_upper c)
             (title_from (is_lower c || is_upper c) s')
  | EmptyString => EmptyString
  end.

Definition ascii_title (s : string) : string := title_from false s.

Fixpoint digits (acc : nat) (s : string) : option nat :=
  match s with
  | String c s' =>
      match Ascii.is_nat c with
      | Some n => digits (10 * acc + n) s'
      | None => None
      end
  | EmptyString => Some acc
  end.

Definition ascii_float (s : string) : option Number :=
  match ascii_strip s with
  | EmptyString => None
  | s' => of_nat <$> digits 0 s'
  end.

Definition ascii_lib : PyLib :=
  {| str_strip := ascii_strip; str_title := ascii_title;
     str_split := String.words; to_float := ascii_float |}.

(** A small review table as [pd.read_csv] yields it. *)
Definition sample : DataFrame :=
  [ ("App", mkSeries DObject [Str "Maps"; Str "Maps"; Str "Mail"; Str "Mail"; Str "Chat"]);
    ("Review", mkSeries DObject
       [Str "Great app"; Str "ok"; NaN; Str "Bad one"; Str "so so"]);
    ("Sentiment", mkSeries DObject
       [Str " positive"; Str "Positive"; Str "Negative"; Str "NEGATIVE "; Str "Neutral"]);
    ("Rating", mkSeries DObject [Str "5"; Str "4"; Str "3"; Str "1"; Str "9"]) ].

Example clean_sample :
  let out := clean_dataframe (H := ascii_lib) 0 0 [sample] in
  out.1 = Ok 12 ∧
  (d ← out.2 !! 12;
   Some (named "review_text" d, named "rating" d, named "sentiment" d,
         named "rating_category" d))
  = Some ([mkSeries DObject [Str "Great app"; Str "Bad one"]],
          [mkSeries DNumeric [Num (of_nat 5); Num (of_nat 1)]],
          [mkSeries DObject [Str "Positive"; Str "Negative"]],
          [mkSeries (DCategory [Str "Poor"; Str "Fair"; Str "Good"; Str "Excellent"])
                    [Str "Excellent"; Str "Poor"]]) ∧
  out.2 !! 0 = Some sample.
Proof. vm_compute. done. Qed.

(** The table that a run returned. *)
Definition returned (out : Res loc * Heap) : option DataFrame :=
  match out.1 with Ok r => out.2 !! r | Raise _ => None end.

(** Length is counted in code points, not in bytes: the two letters of
    the first review below are four bytes, and the row is dropped. *)
Example len_code_points : len "éé" = 2 ∧ len "été" = 3 ∧ len "Great app" = 9.
Proof. vm_compute. done. Qed.

Example clean_accented :
  let d := [("Review", mkSeries DObject [Str "éé"; Str "été"]);
            ("Sentiment", mkSeries DObject [Str "Positive"; Str "Negative"]);
            ("Rating", mkSeries DNumeric [Num (of_nat 5); Num (of_nat 1)])] in
  let out := clean_dataframe (H := ascii_lib) 0 0 [d] in
  named "review_text" <$> returned out = Some [mkSeries DObject [Str "été"]].
Proof. vm_compute. done. Qed.

(** A rating column of dtype [datetime64] is read as the integers it
    holds, and an object column of numbers has no [.str]. *)
Example clean_datetime_rating :
  let d := [("Review", mkSeries DObject [Str "Great app"]);
            ("Sentiment", mkSeries DObject [Str "Positive"]);
            ("Rating", mkSeries DDatetime [Timestamp 3])] in
  let out := clean_dataframe (H := ascii_lib) 0 0 [d] in
  named "rating" <$> returned out = Some [mkSeries DNumeric [Num (of_nat 3)]].
Proof. vm_compute. done. Qed.

Example clean_numbers_as_reviews :
  let d := [("Review", mkSeries DObject [Num (of_nat 12); Num (of_nat 678)]);
            ("Sentiment", mkSeries DObject [Str "Positive"; Str "Negative"]);
            ("Rating", mkSeries DNumeric [Num (of_nat 5); Num (of_nat 1)])] in
  (clean_dataframe (H := ascii_lib) 0 0 [d]).1 = Raise AttributeError.
Proof. vm_compute. done. Qed.

(** [add_features] does write to the object it is handed: the copy made by
    [clean_dataframe] is what keeps the caller's table out of reach. *)
Example add_features_writes :
  let d := [("review_text", mkSeries DObject [Str "Great app"]);
            ("rating", mkSeries DNumeric [Num (of_nat 5)]);
            ("sentiment", mkSeries DObject [Str "Positive"])] in
  let out := add_features (H := ascii_lib) 0 [d] in
  out.1 = Ok 0 ∧ length out.2 = 1 ∧ (columns <$> out.2 !! 0) = Some
    ["review_text"; "rating"; "sentiment"; "review_length"; "review_word_count";
     "review_length_category"; "rating_category"; "sentiment_binary"].
Proof. vm_compute. done. Qed.

(** On reviews that are numbers it raises before it writes anything. *)
Example add_features_numbers :
  let d := [("review_text", mkSeries DObject [Num (of_nat 12)])] in
  add_features (H := ascii_lib) 0 [d] = (Raise AttributeError, [d]).
Proof. vm_compute. done. Qed.

(** ** Theorems *)

(** C9. Whenever [clean_dataframe] returns, the table it returns has one
    [review_text], one [rating] and one [sentiment] column, and in every row
    the review text is a string of at least 3 characters (code points,
    [len]), the rating is a number between 1 and 5, and the sentiment is
    one of Positive, Negative and Neutral. *)
Theorem clean_dataframe_rows_valid `{PyLib} now df h r h' :
  clean_dataframe now df h = (Ok r, h') →
  ∃ d, h' !! r = Some d ∧
    (∃ s, named "review_text" d = [s]) ∧
    (∃ s, named "rating" d = [s]) ∧
    (∃ s, named "sentiment" d = [s]) ∧
    ∀ i c,
      ((("review_text", c) ∈ row d i) → ∃ s, c = Str s ∧ 3 ≤ len s) ∧
      ((("rating", c) ∈ row d i) → ∃ q, c = Num (Fin q) ∧ (1 <= q)%Q ∧ (q <= 5)%Q) ∧
      ((("sentiment", c) ∈ row d i) →
         ∃ s, c = Str s ∧ s ∈ ["Positive"; "Negative"; "Neutral"]).
Proof.
  intros Hrun. pose proof (clean_dataframe_spec now h df h) as Hs.
  rewrite Hrun in Hs. destruct Hs as (d & (Hrev & Hrat & Hsen) & _ & _ & Hd); [done|].
  exists d. split; [done|].
  split; [destruct Hrev as (s & ? & _); eauto|].
  split; [destruct Hrat as (s & ? & _); eauto|].
  split; [destruct Hsen as (s & ? & _); eauto|].
  intros i c. repeat split; intros Hin.
  - exact (col_row _ _ _ _ _ Hrev Hin).
  - exact (col_row _ _ _ _ _ Hrat Hin).
  - exact (col_row _ _ _ _ _ Hsen Hin).
Qed.

Lemma clean_dataframe_rows_valid_witness :
  ∃ d, (clean_dataframe (H := ascii_lib) 0 0 [sample]).2 !! 12 = Some d ∧
    (∃ s, named "review_text" d = [s]) ∧
    (∃ s, named "rating" d = [s]) ∧
    (∃ s, named "sentiment" d = [s]) ∧
    ∀ i c,
      ((("review_text", c) ∈ row d i) → ∃ s, c = Str s ∧ 3 ≤ len s) ∧
      ((("rating", c) ∈ row d i) → ∃ q, c = Num (Fin q) ∧ (1 <= q)%Q ∧ (q <= 5)%Q) ∧
      ((("sentiment", c) ∈ row d i) →
         ∃ s, c = Str s ∧ s ∈ ["Positive"; "Negative"; "Neutral"]).
Proof.
  apply (clean_dataframe_rows_valid (H := ascii_lib) 0 0 [sample]).
  vm_compute. reflexivity.
Defined.

(** C10. [clean_dataframe] leaves the table it is given as it was: after the
    call, returning or raising, the store holds at the argument's reference
    what it held before, and a returned reference is an object made during
    the call, not the argument. *)
Theorem clean_dataframe_input_unchanged `{PyLib} now df h :
  let out := clean_dataframe now df h in
  out.2 !! df = h !! df ∧
  ∀ r, out.1 = Ok r → r ≠ df ∧ length h ≤ r ∧ is_Some (out.2 !! r).
Proof.
  cbn zeta. destruct (h !! df) as [d|] eqn:Hdf.
  - split.
    + eapply prefix_lookup_Some; [done|apply clean_dataframe_frame].
    + intros r Hr. pose proof (clean_dataframe_spec now h df h) as Hs.
      destruct (clean_dataframe now df h) as [[r'|e] h']; [|done].
      cbn [fst snd] in *. injection Hr as ->.
      destruct Hs as (d' & _ & _ & Hle & Hd'); [done|].
      apply lookup_lt_Some in Hdf. repeat split; [lia|done|by eexists].
  - unfold clean_dataframe, copy, bind, load. rewrite Hdf. by split.
Qed.

End Ingestion.


(** * Part II: more of the ingestion script *)

(** What [clean_dataframe] and [add_features] compute, read as functions of
    the table they are given, and what follows for the rows they keep. *)
Module Cleaning.
Import Ingestion.

Definition rbind {A B} (r : Res A) (k : A → Res B) : Res B :=
  match r with Ok a => k a | Raise e => Raise e end.

Notation "x <~ r ;; k" := (rbind r (λ x, k))
  (at level 100, r at next level, right associativity).

(** The table after the renaming loop over [mapping]. *)
Definition renamed (mapping : list (string * string)) (d : DataFrame) : DataFrame :=
  foldl (λ d kv, rename_columns kv.1 kv.2 d) d mapping.

(** [df[name].str], on a table. *)
Definition str_of (name : string) (d : DataFrame) : Res Series :=
  rbind (getitem name AttributeError d) str_accessor.

Section Frames.
Context `{PyLib}.
Variable now : Z.

(** The table [add_features] leaves in the object it is given. *)
Definition add_features_frame (d : DataFrame) : Res DataFrame :=
  review_text <~ str_of "review_text" d ;;
  let d := set_column "review_length" (smap str_len DNumeric review_text) d in
  review_text <~ str_of "review_text" d ;;
  let d := set_column "review_word_count" (smap word_count DNumeric review_text) d in
  review_length <~ getitem "review_length" ValueError d ;;
  let d := set_column "review_length_category"
             (cut_series [int 0; int 50; int 150; int 500; inf]
                         ["Short"; "Medium"; "Long"; "Very Long"] review_length) d in
  rating <~ getitem "rating" ValueError d ;;
  let d := set_column "rating_category"
             (cut_series [int 0; int 2; int 3; int 4; int 5]
                         ["Poor"; "Fair"; "Good"; "Excellent"] rating) d in
  sentiment <~ getitem "sentiment" TypeError d ;;
  Ok (set_column "sentiment_binary"
        (smap (map_dict [("Positive", Fin 1); ("Negative", Fin 0); ("Neutral", Fin (1 # 2))])
              DNumeric sentiment) d).

(** The rows that pass the three cleaning stages, the rating parsed and the
    sentiment normalised on the way. *)
Definition filter_rows (d : DataFrame) : Res DataFrame :=
  d <~ dropna "review_text" d ;;
  review_text <~ str_of "review_text" d ;;
  let d := take_rows ((λ c, cell_ge (int 3) (str_len c)) <$> values review_text) d in
  rating <~ getitem "rating" TypeError d ;;
  let d := set_column "rating" (to_numeric rating) d in
  d <~ dropna "rating" d ;;
  rating <~ getitem "rating" TypeError d ;;
  let d := take_rows ((λ c, cell_ge (int 1) c && cell_le (int 5) c) <$> values rating) d in
  sentiment <~ str_of "sentiment" d ;;
  let d := set_column "sentiment" (smap strip_title DObject sentiment) d in
  sentiment <~ getitem "sentiment" AttributeError d ;;
  Ok (take_rows (isin valid_sentiments <$> values sentiment) d).

(** The two metadata columns. *)
Definition add_metadata (d : DataFrame) : DataFrame :=
  let d := set_column "ingestion_timestamp"
             (mkSeries DDatetime (replicate (nrows d) (Timestamp now))) d in
  set_column "data_source"
    (mkSeries DObject (replicate (nrows d) (Str "kaggle_google_play_store"))) d.

(** The table [clean_dataframe] returns, or the exception it raises. *)
Definition clean_frame (d : DataFrame) : Res DataFrame :=
  let d := renamed column_mapping d in
  if decide (filter (λ col, col ∉ columns d) required_columns = []) then
    d <~ filter_rows d ;;
    d <~ add_features_frame d ;;
    Ok (add_metadata d)
  else Raise ValueError.

End Frames.

(** ** The script computes these tables *)

(** [ends out h p]: the run [out], started in store [h], ended as [p] says,
    a returned table being the newest object of the store, and kept [h]. *)
Definition ends (out : Res loc * Heap) (h : Heap) (p : Res DataFrame) : Prop :=
  ∃ hp, h `prefix_of` hp ∧
    match p with
    | Ok d => out = (Ok (length hp), hp ++ [d])
    | Raise e => out = (Raise e, hp)
    end.

Lemma lookup_newest {A} (hp : list A) d : (hp ++ [d]) !! length hp = Some d.
Proof. rewrite lookup_app_r by lia. by rewrite Nat.sub_diag. Qed.

Lemma insert_newest {A} (hp : list A) d d' : <[length hp := d']> (hp ++ [d]) = hp ++ [d'].
Proof. rewrite insert_app_r_alt by lia. by rewrite Nat.sub_diag. Qed.

Lemma prefix_snoc {A} (h hp : list A) d : h `prefix_of` hp → h `prefix_of` hp ++ [d].
Proof. intros. by apply prefix_app_r. Qed.

Section Steps.

Variable h : Heap.

Lemma ends_ret hp d : h `prefix_of` hp → ends (ret (length hp) (hp ++ [d])) h (Ok d).
Proof. intros. by exists hp. Qed.

Lemma ends_copy r d0 (K : loc → Py loc) p :
  h !! r = Some d0 →
  ends (K (length h) (h ++ [d0])) h p →
  ends (bind (copy r) K h) h p.
Proof.
  intros Hr HK. unfold copy, bind, load, alloc. by rewrite Hr.
Qed.

Lemma ends_mask hp d m (K : loc → Py loc) p :
  ends (K (length (hp ++ [d])) ((hp ++ [d]) ++ [take_rows m d])) h p →
  ends (bind (getitem_mask (length hp) m) K (hp ++ [d])) h p.
Proof. unfold getitem_mask, bind, load, alloc. by rewrite lookup_newest. Qed.

Lemma ends_rename hp d old new (K : loc → Py loc) p :
  ends (K (length (hp ++ [d])) ((hp ++ [d]) ++ [rename_columns old new d])) h p →
  ends (bind (rename (length hp) old new) K (hp ++ [d])) h p.
Proof. unfold rename, bind, load, alloc. by rewrite lookup_newest. Qed.

Lemma ends_dropna hp d name (K : loc → Py loc) (P : DataFrame → Res DataFrame) :
  h `prefix_of` hp →
  (∀ d', dropna name d = Ok d' →
         ends (K (length (hp ++ [d])) ((hp ++ [d]) ++ [d'])) h (P d')) →
  ends (bind (dropna_subset (length hp) name) K (hp ++ [d])) h (rbind (dropna name d) P).
Proof.
  intros Hh HK. unfold dropna_subset, bind, load, lift, alloc. rewrite lookup_newest.
  destruct (dropna name d) as [d'|e]; [by apply HK|].
  exists (hp ++ [d]). split; [by apply prefix_snoc|done].
Qed.

Lemma ends_setitem hp d name s (K : unit → Py loc) p :
  ends (K tt (hp ++ [set_column name s d])) h p →
  ends (bind (setitem (length hp) name s) K (hp ++ [d])) h p.
Proof.
  unfold setitem, bind, load, store. rewrite lookup_newest. by rewrite insert_newest.
Qed.

Lemma ends_setitem_scalar hp d name ty c (K : unit → Py loc) p :
  ends (K tt (hp ++ [set_column name (mkSeries ty (replicate (nrows d) c)) d])) h p →
  ends (bind (setitem_scalar (length hp) name ty c) K (hp ++ [d])) h p.
Proof.
  unfold setitem_scalar, bind, load, store. rewrite lookup_newest. by rewrite insert_newest.
Qed.

Lemma ends_series hp d name e (K : Series → Py loc) (P : Series → Res DataFrame) :
  h `prefix_of` hp →
  (∀ s, getitem name e d = Ok s → ends (K s (hp ++ [d])) h (P s)) →
  ends (bind (series (length hp) name e) K (hp ++ [d])) h (rbind (getitem name e d) P).
Proof.
  intros Hh HK. unfold series, bind, load, lift. rewrite lookup_newest.
  destruct (getitem name e d) as [s|e']; [by apply HK|].
  exists (hp ++ [d]). split; [by apply prefix_snoc|done].
Qed.

Lemma ends_series_str hp d name (K : Series → Py loc) (P : Series → Res DataFrame) :
  h `prefix_of` hp →
  (∀ s, str_of name d = Ok s → ends (K s (hp ++ [d])) h (P s)) →
  ends (bind (series_str (length hp) name) K (hp ++ [d])) h (rbind (str_of name d) P).
Proof.
  intros Hh HK. unfold series_str, series, str_of, bind, load, lift. rewrite lookup_newest.
  unfold str_of in HK.
  destruct (getitem name AttributeError d) as [s|e']; cbn [rbind] in *.
  - destruct (str_accessor s) as [s'|e'] eqn:Hs; [by apply HK|].
    exists (hp ++ [d]). split; [by apply prefix_snoc|done].
  - exists (hp ++ [d]). split; [by apply prefix_snoc|done].
Qed.

Lemma rename_absent old new d : old ∉ columns d → rename_columns old new d = d.
Proof.
  unfold rename_columns, columns. induction d as [|[n s] d IH]; [done|].
  rewrite !fmap_cons, not_elem_of_cons. cbn [fst snd]. intros [Hn Hd].
  rewrite decide_False by done. by rewrite IH.
Qed.

Lemma ends_rename_loop mapping hp d (K : loc → Py loc) p :
  h `prefix_of` hp →
  (∀ hp', h `prefix_of` hp' →
          ends (K (length hp') (hp' ++ [renamed mapping d])) h p) →
  ends (bind (rename_loop mapping (length hp)) K (hp ++ [d])) h p.
Proof.
  revert hp d K. induction mapping as [|[old new] rest IH]; intros hp d K Hh HK.
  - unfold bind. cbn [rename_loop ret]. by apply HK.
  - cbn [rename_loop]. unfold bind at 1 2. unfold load. rewrite lookup_newest.
    destruct (decide (old ∈ columns d)) as [Hin|Hout].
    + change (ends (bind (bind (rename (length hp) old new)
                 (λ df_clean, rename_loop rest df_clean)) K (hp ++ [d])) h p).
      unfold bind at 1 2. unfold rename, bind, load, alloc. rewrite lookup_newest.
      change (ends (bind (rename_loop rest (length (hp ++ [d]))) K
                      ((hp ++ [d]) ++ [rename_columns old new d])) h p).
      apply IH; [by apply prefix_snoc|]. intros hp' Hhp'. by apply HK.
    + change (ends (bind (rename_loop rest (length hp)) K (hp ++ [d])) h p).
      apply IH; [done|]. intros hp' Hhp'. specialize (HK hp' Hhp').
      change (renamed ((old, new) :: rest) d)
        with (renamed rest (rename_columns old new d)) in HK.
      by rewrite rename_absent in HK.
Qed.

Lemma bind_assoc {A B C} (m : Py A) (f : A → Py B) (K : B → Py C) h1 :
  bind (bind m f) K h1 = bind m (λ x, bind (f x) K) h1.
Proof. unfold bind. by destruct (m h1) as [[a|e] h2]. Qed.

Lemma rbind_assoc {A B C} (r : Res A) (f : A → Res B) (P : B → Res C) :
  rbind (rbind r f) P = rbind r (λ x, rbind (f x) P).
Proof. by destruct r. Qed.

Context `{PyLib}.
Variable now : Z.

Ltac e_series := rewrite bind_assoc; cbn beta zeta; rewrite ?rbind_assoc;
  apply ends_series; [by repeat apply prefix_snoc|]; intros ? ?.
Ltac e_str := rewrite bind_assoc; cbn beta zeta; rewrite ?rbind_assoc;
  apply ends_series_str; [by repeat apply prefix_snoc|]; intros ? ?.
Ltac e_set := rewrite bind_assoc; apply ends_setitem.
Ltac e_scalar := rewrite bind_assoc; apply ends_setitem_scalar.
Ltac e_mask := rewrite bind_assoc; apply ends_mask.
Ltac e_dropna := rewrite bind_assoc; cbn beta zeta; rewrite ?rbind_assoc;
  apply ends_dropna; [by repeat apply prefix_snoc|]; intros ? ?.

Lemma ends_add_features hp d (K : loc → Py loc) (P : DataFrame → Res DataFrame) :
  h `prefix_of` hp →
  (∀ d', ends (K (length hp) (hp ++ [d'])) h (P d')) →
  ends (bind (add_features (length hp)) K (hp ++ [d])) h (rbind (add_features_frame d) P).
Proof.
  intros Hh HK. unfold add_features, add_features_frame.
  e_str. e_set. e_str. e_set. e_series. e_set. e_series. e_set. e_series. e_set.
  unfold bind, ret. cbn [rbind]. apply HK.
Qed.

(** [clean_dataframe], from a store that holds table [d] at [df], ends as
    [clean_frame d] says and keeps the store it was given. *)
Lemma clean_dataframe_ends df d :
  h !! df = Some d → ends (clean_dataframe now df h) h (clean_frame now d).
Proof.
  intros Hdf. unfold clean_dataframe, clean_frame.
  apply (ends_copy df d); [done|].
  apply ends_rename_loop; [reflexivity|]. intros hp Hhp.
  unfold bind at 1, load at 1. rewrite lookup_newest. cbn zeta.
  destruct (decide (filter _ required_columns = [])) as [Hreq|Hreq].
  2: { exists (hp ++ [renamed column_mapping d]). split; [by apply prefix_snoc|done]. }
  unfold filter_rows. rewrite rbind_assoc.
  apply ends_dropna; [done|]. intros d3 Hd3. rewrite rbind_assoc.
  apply ends_series_str; [by repeat apply prefix_snoc|]. intros rt Hrt.
  apply ends_mask. cbn zeta. rewrite rbind_assoc.
  apply ends_series; [by repeat apply prefix_snoc|]. intros ra Hra.
  apply ends_setitem. cbn zeta. rewrite rbind_assoc.
  apply ends_dropna; [by repeat apply prefix_snoc|]. intros d5 Hd5. rewrite rbind_assoc.
  apply ends_series; [by repeat apply prefix_snoc|]. intros ra2 Hra2.
  apply ends_mask. cbn zeta. rewrite rbind_assoc.
  apply ends_series_str; [by repeat apply prefix_snoc|]. intros se Hse.
  apply ends_setitem. cbn zeta. rewrite rbind_assoc.
  apply ends_series; [by repeat apply prefix_snoc|]. intros se2 Hse2.
  apply ends_mask. cbn [rbind].
  apply ends_add_features; [by repeat apply prefix_snoc|]. intros d9.
  apply ends_setitem_scalar. apply ends_setitem_scalar.
  apply ends_ret. by repeat apply prefix_snoc.
Qed.

End Steps.

(** ** Masks *)

Lemma mask_list_nil_r {A} m : mask_list m (@nil A) = [].
Proof. by destruct m as [|[] m]. Qed.

Lemma fmap_mask_list {A B} (f : A → B) m l :
  f <$> mask_list m l = mask_list m (f <$> l).
Proof.
  revert l. induction m as [|b m IH]; intros [|x l]; try done.
  rewrite fmap_cons. cbn [mask_list]. destruct b; rewrite ?fmap_cons, IH; done.
Qed.

(** Selecting on a column of the selected rows is selecting on the
    conjunction of the two conditions. *)
Lemma mask_mask {A B} (p : A → bool) m (l : list A) (x : list B) :
  mask_list (p <$> mask_list m l) (mask_list m x)
  = mask_list (zip_with andb m (p <$> l)) x.
Proof.
  revert l x. induction m as [|b m IH]; intros l x; [done|].
  destruct l as [|a l]; [done|]. destruct x as [|y x].
  { by rewrite !mask_list_nil_r. }
  rewrite fmap_cons. cbn [mask_list zip_with]. destruct b; cbn [andb].
  - rewrite fmap_cons. cbn [mask_list]. destruct (p a); by rewrite IH.
  - apply IH.
Qed.

Lemma mask_list_sublist {A} m (l : list A) : mask_list m l `sublist_of` l.
Proof.
  revert l. induction m as [|b m IH]; intros [|x l]; cbn [mask_list]; try done.
  - apply sublist_nil_l.
  - destruct b; [by apply sublist_skip|by apply sublist_cons].
Qed.

Lemma zip_with_andb_fmap {A} (p q : A → bool) (l : list A) :
  zip_with andb (p <$> l) (q <$> l) = (λ x, p x && q x) <$> l.
Proof. induction l as [|x l IH]; [done|]. rewrite !fmap_cons. cbn. by rewrite IH. Qed.

(** ** Tables under selection and assignment *)

Definition masked (m : list bool) (s : Series) : Series :=
  mkSeries (dtype s) (mask_list m (values s)).

Lemma take_rows_masked m d : take_rows m d = (λ c, (c.1, masked m c.2)) <$> d.
Proof. done. Qed.

Lemma columns_take_rows m d : columns (take_rows m d) = columns d.
Proof.
  unfold columns, take_rows. rewrite <- list_fmap_compose. by apply list_fmap_ext.
Qed.

Lemma columns_set_column name s d :
  columns (set_column name s d)
  = if decide (name ∈ columns d) then columns d else columns d ++ [name].
Proof.
  unfold set_column. destruct (decide (name ∈ columns d)) as [Hin|Hout].
  - unfold columns. rewrite <- list_fmap_compose. apply list_fmap_ext.
    intros i [n x] _. cbn. by destruct (decide (n = name)) as [->|].
  - unfold columns. by rewrite fmap_app.
Qed.

Lemma columns_rename old new d :
  columns (rename_columns old new d)
  = (λ n, if decide (n = old) then new else n) <$> columns d.
Proof. unfold columns, rename_columns. by rewrite <- !list_fmap_compose. Qed.

Lemma named_masked name m d : named name (take_rows m d) = masked m <$> named name d.
Proof. apply named_take_rows. Qed.

Lemma take_rows_select (p : Cell → bool) m (l : list Cell) d :
  take_rows (p <$> mask_list m l) (take_rows m d)
  = take_rows (zip_with andb m (p <$> l)) d.
Proof.
  unfold take_rows. rewrite <- list_fmap_compose. apply list_fmap_ext.
  intros i [n s] _. cbn. by rewrite mask_mask.
Qed.

Lemma take_rows_set_column name s m d :
  set_column name (masked m s) (take_rows m d) = take_rows m (set_column name s d).
Proof.
  unfold set_column. rewrite columns_take_rows.
  destruct (decide (name ∈ columns d)).
  - unfold take_rows. rewrite <- !list_fmap_compose. apply list_fmap_ext.
    intros i [n x] _. cbn. by destruct (decide (n = name)).
  - unfold take_rows. by rewrite fmap_app.
Qed.

Lemma dropna_one name s d :
  named name d = [s] → dropna name d = Ok (take_rows (notna <$> values s) d).
Proof. intros Hs. unfold dropna. by rewrite Hs. Qed.

Lemma getitem_one name e s d : named name d = [s] → getitem name e d = Ok s.
Proof. intros Hs. unfold getitem. by rewrite Hs. Qed.

(** Whether a column has [.str]. *)
Definition str_ok (s : Series) : bool :=
  match dtype s with
  | DObject => str_values (values s)
  | DCategory categories => str_values categories
  | DNumeric | DDatetime => false
  end.

Lemma str_accessor_str_ok s :
  str_accessor s = if str_ok s then Ok s else Raise AttributeError.
Proof. unfold str_accessor, str_ok. by destruct (dtype s). Qed.

Lemma str_accessor_iff s : str_accessor s = Ok s ↔ str_ok s = true.
Proof. rewrite str_accessor_str_ok. by destruct (str_ok s). Qed.

Lemma existsb_dropna (p : Cell → bool) l :
  p NaN = false → existsb p (mask_list (notna <$> l) l) = existsb p l.
Proof.
  intros Hp. induction l as [|c l IH]; [done|].
  rewrite fmap_cons. cbn [mask_list]. destruct c; cbn [notna existsb]; rewrite ?IH, ?Hp; done.
Qed.

(** Missing values do not count for [.str]. *)
Lemma str_values_dropna l : str_values (mask_list (notna <$> l) l) = str_values l.
Proof.
  unfold str_values. rewrite !existsb_dropna by done. do 2 f_equal.
  induction l as [|c l IH]; [done|].
  rewrite fmap_cons. cbn [mask_list]. destruct c; cbn [notna forallb negb andb]; done.
Qed.

Lemma str_ok_dropna s : str_ok (masked (notna <$> values s) s) = str_ok s.
Proof.
  unfold str_ok, masked. cbn [dtype values]. destruct (dtype s); try done.
  apply str_values_dropna.
Qed.

Lemma str_values_strings l : Forall (λ c, is_str c = true) l → str_values l = true.
Proof.
  intros Hl. unfold str_values. destruct Hl as [|c l Hc Hl]; [done|].
  cbn [existsb]. rewrite Hc. by rewrite orb_true_r.
Qed.

(** A column of strings, some rows of it left out, still has [.str]. *)
Lemma str_ok_strings m s :
  str_ok s = true → Forall (λ c, is_str c = true) (mask_list m (values s)) →
  str_ok (masked m s) = true.
Proof.
  unfold str_ok, masked. cbn [dtype values]. destruct (dtype s); try done.
  intros _. apply str_values_strings.
Qed.

Lemma str_of_one name s d :
  named name d = [s] → str_accessor s = Ok s → str_of name d = Ok s.
Proof. intros Hs Ha. unfold str_of. by rewrite (getitem_one _ _ s). Qed.

Lemma str_of_inv name d s :
  str_of name d = Ok s → named name d = [s] ∧ str_accessor s = Ok s.
Proof.
  unfold str_of. destruct (getitem name AttributeError d) as [x|] eqn:Hx; [|done].
  cbn [rbind]. intros Hs. pose proof (str_accessor_ok _ _ Hs) as ->.
  split; [by eapply getitem_named|done].
Qed.

Lemma fmap_singleton_inv {A B} (f : A → B) l y : f <$> l = [y] → ∃ x, l = [x] ∧ y = f x.
Proof. destruct l as [|x [|z l]]; try done. intros [= <-]. eauto. Qed.

Lemma named_masked_inv name m d s' :
  named name (take_rows m d) = [s'] → ∃ s, named name d = [s] ∧ s' = masked m s.
Proof. rewrite named_masked. apply fmap_singleton_inv. Qed.

Lemma rbind_ok {A B} (r : Res A) (k : A → Res B) b :
  rbind r k = Ok b → ∃ a, r = Ok a ∧ k a = Ok b.
Proof. destruct r as [a|e]; [|done]. eauto. Qed.


(** ** The rows that are kept *)

Section Rows.
Context `{PyLib}.

Definition keep_text (c : Cell) : bool := cell_ge (int 3) (str_len c).
Definition keep_rating (c : Cell) : bool := cell_ge (int 1) c && cell_le (int 5) c.
Definition keep_sentiment (c : Cell) : bool := isin valid_sentiments c.

(** A row is kept when its review text is a string of 3 characters or more,
    its rating, as [pd.to_numeric] reads it, is a number from 1 to 5, and
    its sentiment, stripped and title-cased, is one of the three valid
    ones. *)
Definition valid_row (t r s : Cell) : bool :=
  keep_text t && keep_rating r && keep_sentiment (strip_title s).

(** The mask of the rows that are kept, from the review column, the rating
    column as [pd.to_numeric] reads it, and the sentiment column. *)
Definition kept (T R S : list Cell) : list bool :=
  zip_with (λ t (rs : Cell * Cell), valid_row t rs.1 rs.2) T (zip R S).

(** The mask of the rows whose review and rating are valid: those that are
    left when the sentiment column is cleaned. *)
Definition rated (T R : list Cell) : list bool :=
  zip_with (λ t r, keep_text t && keep_rating r) T R.

Lemma smap_masked f ty m s : smap f ty (masked m s) = masked m (smap f ty s).
Proof. unfold smap, masked. cbn [values dtype]. by rewrite fmap_mask_list. Qed.

Lemma to_numeric_masked m s : to_numeric (masked m s) = masked m (to_numeric s).
Proof.
  unfold to_numeric, masked. cbn [dtype values].
  destruct (dtype s) eqn:Hd; cbn [dtype values]; rewrite ?fmap_mask_list, ?Hd; done.
Qed.

Lemma dtype_to_numeric s : dtype (to_numeric s) = DNumeric.
Proof. unfold to_numeric. by destruct (dtype s) eqn:Hd. Qed.

Lemma rated_row t r :
  notna t && keep_text t && notna r && keep_rating r = keep_text t && keep_rating r.
Proof.
  unfold keep_text, keep_rating.
  destruct t as [|x|x|x], r as [|y|y|y];
    cbn [notna str_len cell_ge cell_le andb]; rewrite ?andb_false_r, ?andb_true_r; done.
Qed.

Lemma rated_stages (T R : list Cell) :
  zip_with andb
    (zip_with andb (zip_with andb (notna <$> T) (keep_text <$> T)) (notna <$> R))
    (keep_rating <$> R)
  = rated T R.
Proof.
  unfold rated. revert R. induction T as [|t T IH]; intros R; [done|].
  destruct R as [|r R]; [done|].
  rewrite !fmap_cons. cbn [zip_with]. f_equal; [apply rated_row|apply IH].
Qed.

Lemma kept_rated (T R S : list Cell) :
  zip_with andb (rated T R) (keep_sentiment <$> (strip_title <$> S)) = kept T R S.
Proof.
  unfold kept, rated. revert R S. induction T as [|t T IH]; intros R S; [done|].
  destruct R as [|r R]; [done|]. destruct S as [|s S]; [done|].
  rewrite !fmap_cons. cbn [zip_with zip fst snd]. f_equal. apply IH.
Qed.

(** The kept cells of the review column are strings. *)
Lemma kept_strings (T R S : list Cell) :
  Forall (λ c, is_str c = true) (mask_list (kept T R S) T).
Proof.
  unfold kept. revert R S. induction T as [|t T IH]; intros R S; [done|].
  destruct R as [|r R]; [done|]. destruct S as [|s S]; [done|].
  cbn [zip_with zip fst snd mask_list]. destruct (valid_row t r s) eqn:Hv; [|apply IH].
  constructor; [|apply IH]. unfold valid_row, keep_text in Hv. by destruct t.
Qed.

Lemma str_of_named name s d : named name d = [s] → str_of name d = str_accessor s.
Proof. intros Hs. unfold str_of. by rewrite (getitem_one _ _ s). Qed.

(** The table after the three cleaning stages. *)
Definition selected (T R S : Series) (d : DataFrame) : DataFrame :=
  take_rows (kept (values T) (values (to_numeric R)) (values S))
    (set_column "sentiment" (smap strip_title DObject S)
       (set_column "rating" (to_numeric R) d)).

(** The sentiment cells that [.str] is asked for: those of the rows whose
    review and rating are valid. *)
Definition rated_sentiment (T R S : Series) : Series :=
  masked (rated (values T) (values (to_numeric R))) S.

Lemma filter_rows_eq d T R S :
  named "review_text" d = [T] → named "rating" d = [R] → named "sentiment" d = [S] →
  filter_rows d
  = if str_ok T && str_ok (rated_sentiment T R S)
    then Ok (selected T R S d)
    else Raise AttributeError.
Proof.
  intros HT HR HS. unfold filter_rows, selected, rated_sentiment.
  rewrite (dropna_one _ T) by done. cbn [rbind].
  rewrite (str_of_named _ (masked (notna <$> values T) T))
    by (by rewrite named_masked, HT).
  rewrite str_accessor_str_ok, str_ok_dropna.
  destruct (str_ok T); [|done]. cbn [rbind andb]. cbn zeta. cbn [values masked].
  rewrite take_rows_select.
  set (M2 := zip_with andb _ _).
  rewrite (getitem_one _ _ (masked M2 R)) by (by rewrite named_masked, HR).
  cbn [rbind]. rewrite to_numeric_masked, take_rows_set_column.
  set (R' := to_numeric R).
  set (dR := set_column "rating" R' d).
  assert (named "rating" dR = [R']) as HR' by (by eapply named_set_column_eq).
  assert (named "sentiment" dR = [S]) as HS'.
  { unfold dR. by rewrite named_set_column_ne. }
  rewrite (dropna_one _ (masked M2 R')) by (by rewrite named_masked, HR').
  cbn [rbind]. cbn [values masked]. rewrite take_rows_select.
  set (M3 := zip_with andb _ _).
  rewrite (getitem_one _ _ (masked M3 R')) by (by rewrite named_masked, HR').
  cbn [rbind]. cbn [values masked]. rewrite take_rows_select.
  set (M4 := zip_with andb _ _).
  assert (M4 = rated (values T) (values R')) as HM4 by apply rated_stages.
  rewrite (str_of_named _ (masked M4 S)) by (by rewrite named_masked, HS').
  rewrite str_accessor_str_ok, HM4.
  destruct (str_ok (masked (rated (values T) (values R')) S)); [|done].
  cbn [rbind]. rewrite smap_masked, take_rows_set_column.
  set (S' := smap strip_title DObject S).
  set (dRS := set_column "sentiment" S' dR).
  assert (named "sentiment" dRS = [S']) as HS'' by (by eapply named_set_column_eq).
  rewrite (getitem_one _ _ (masked (rated (values T) (values R')) S'))
    by (by rewrite named_masked, HS'').
  cbn [rbind]. cbn [values masked]. rewrite take_rows_select.
  do 2 f_equal. unfold S', smap. cbn [values]. apply kept_rated.
Qed.

End Rows.

Section Inversion.
Context `{PyLib}.
Variable now : Z.

Lemma filter_rows_inv d d' :
  filter_rows d = Ok d' →
  ∃ T R S, named "review_text" d = [T] ∧ named "rating" d = [R] ∧
    named "sentiment" d = [S].
Proof.
  unfold filter_rows. intros Hf.
  apply rbind_ok in Hf as (d1 & [m1 ->]%dropna_take_rows & Hf).
  apply rbind_ok in Hf as (T1 & [HT1 _]%str_of_inv & Hf).
  apply named_masked_inv in HT1 as (T & HT & ->).
  cbn zeta in Hf.
  apply rbind_ok in Hf as (R2 & HR2%getitem_named & Hf).
  apply named_masked_inv in HR2 as (R1 & (R & HR & ->)%named_masked_inv & ->).
  apply rbind_ok in Hf as (d4 & [m4 ->]%dropna_take_rows & Hf).
  apply rbind_ok in Hf as (R5 & _ & Hf).
  apply rbind_ok in Hf as (S6 & [HS6 _]%str_of_inv & _).
  apply named_masked_inv in HS6 as (S5 & (S4 & HS4 & ->)%named_masked_inv & ->).
  rewrite named_set_column_ne in HS4 by done.
  apply named_masked_inv in HS4 as (S3 & (S & HS & ->)%named_masked_inv & ->).
  by exists T, R, S.
Qed.

End Inversion.

(** ** The feature columns *)

Lemma named_elem_of name d : name ∈ columns d → named name d ≠ [].
Proof.
  unfold columns. intros ([n s] & -> & Hin)%list_elem_of_fmap. cbn [fst].
  assert (s ∈ named n d) as Hs.
  { unfold named. apply list_elem_of_fmap. exists (n, s). split; [done|].
    by apply list_elem_of_filter. }
  intros Hnil. rewrite Hnil in Hs. by apply not_elem_of_nil in Hs.
Qed.

Lemma named_app name d1 d2 : named name (d1 ++ d2) = named name d1 ++ named name d2.
Proof. unfold named. by rewrite filter_app, fmap_app. Qed.

(** After [df[name] = s] every column [name] is [s], and there is one. *)
Lemma named_set_column_self name s d :
  named name (set_column name s d) = replicate (length (named name d) `max` 1) s.
Proof.
  unfold set_column. destruct (decide (name ∈ columns d)) as [Hin|Hout].
  - rewrite named_replace, decide_True by done.
    apply named_elem_of in Hin. destruct (named name d) as [|x l] eqn:Hx; [done|].
    rewrite (const_fmap _ _ s) by done. f_equal. cbn [length]. lia.
  - rewrite named_app, (named_nil _ _ Hout), named_cons, decide_True by done.
    done.
Qed.

Lemma named_set_column_one name s d :
  length (named name d) ≤ 1 → named name (set_column name s d) = [s].
Proof.
  intros Hle. rewrite named_set_column_self.
  by replace (length (named name d) `max` 1) with 1 by lia.
Qed.

Lemma replicate_singleton_inv {A} n (x y : A) : replicate n x = [y] → n = 1 ∧ y = x.
Proof. destruct n as [|[|n]]; try done. by intros [= ->]. Qed.

Section Features.
Context `{PyLib}.

Definition featured (T R S : Series) (d : DataFrame) : DataFrame :=
  set_column "sentiment_binary"
    (smap (map_dict [("Positive", Fin 1); ("Negative", Fin 0); ("Neutral", Fin (1 # 2))])
          DNumeric S)
    (set_column "rating_category"
       (cut_series [int 0; int 2; int 3; int 4; int 5]
                   ["Poor"; "Fair"; "Good"; "Excellent"] R)
       (set_column "review_length_category"
          (cut_series [int 0; int 50; int 150; int 500; inf]
                      ["Short"; "Medium"; "Long"; "Very Long"]
                      (smap str_len DNumeric T))
          (set_column "review_word_count" (smap word_count DNumeric T)
             (set_column "review_length" (smap str_len DNumeric T) d)))).

(** What [add_features] needs of the table to return. *)
Definition featurable (T R S : Series) (d : DataFrame) : Prop :=
  named "review_text" d = [T] ∧ str_accessor T = Ok T ∧
  named "rating" d = [R] ∧ named "sentiment" d = [S] ∧
  length (named "review_length" d) ≤ 1.

Lemma add_features_frame_normal T R S d :
  featurable T R S d → add_features_frame d = Ok (featured T R S d).
Proof.
  intros (HT & HTs & HR & HS & Hone). unfold add_features_frame, featured.
  rewrite (str_of_one _ T) by done. cbn [rbind]. cbn zeta.
  rewrite (str_of_one _ T) by (by rewrite ?named_set_column_ne). cbn [rbind].
  rewrite (getitem_one _ _ (smap str_len DNumeric T)); cycle 1.
  { rewrite named_set_column_ne by done. by apply named_set_column_one. }
  cbn [rbind].
  rewrite (getitem_one _ _ R) by (by rewrite !named_set_column_ne).
  cbn [rbind].
  rewrite (getitem_one _ _ S) by (by rewrite !named_set_column_ne).
  done.
Qed.

Lemma add_features_frame_inv d d' :
  add_features_frame d = Ok d' → ∃ T R S, featurable T R S d ∧ d' = featured T R S d.
Proof.
  unfold add_features_frame. intros Hf.
  apply rbind_ok in Hf as (T & [HT HTs]%str_of_inv & Hf). cbn zeta in Hf.
  apply rbind_ok in Hf as (T' & [HT' _]%str_of_inv & Hf).
  rewrite named_set_column_ne, HT in HT' by done. injection HT' as <-.
  apply rbind_ok in Hf as (L & HL%getitem_named & Hf).
  rewrite named_set_column_ne, named_set_column_self in HL by done.
  apply replicate_singleton_inv in HL as [Hone ->].
  apply rbind_ok in Hf as (R & HR%getitem_named & Hf).
  rewrite !named_set_column_ne in HR by done.
  apply rbind_ok in Hf as (S & HS%getitem_named & Hf).
  rewrite !named_set_column_ne in HS by done.
  injection Hf as <-. exists T, R, S. split; [|done].
  split_and!; try done. lia.
Qed.

End Features.

(** ** Standard column names *)

(** [mapping.get(key)]. *)
Fixpoint dict_get (mapping : list (string * string)) (key : string) : option string :=
  match mapping with
  | [] => None
  | (k, v) :: rest => if decide (k = key) then Some v else dict_get rest key
  end.

(** The label a column has after the renaming loop: [column_mapping.get(label, label)]. *)
Definition standard_name (label : string) : string :=
  default label (dict_get column_mapping label).

Definition standardised (d : DataFrame) : DataFrame :=
  (λ c, (standard_name c.1, c.2)) <$> d.

(** One pass of the loop over a label. *)
Definition relabel (label : string) (kv : string * string) : string :=
  if decide (label = kv.1) then kv.2 else label.

Lemma renamed_relabel mapping d :
  renamed mapping d = (λ c, (foldl relabel c.1 mapping, c.2)) <$> d.
Proof.
  revert d. induction mapping as [|[k v] rest IH]; intros d.
  - cbn. symmetry. rewrite <- (list_fmap_id d) at 2. apply list_fmap_ext. by intros i [n s] _.
  - change (renamed ((k, v) :: rest) d) with (renamed rest (rename_columns k v d)).
    rewrite IH. unfold rename_columns. rewrite <- list_fmap_compose.
    apply list_fmap_ext. by intros i [n s] _.
Qed.

(** No target of the mapping is renamed again by a later entry. *)
Fixpoint settled (mapping : list (string * string)) : bool :=
  match mapping with
  | [] => true
  | (k, v) :: rest =>
      forallb (λ kv, if decide (kv.1 = v) then bool_decide (kv.2 = v) else true) rest
      && settled rest
  end.

Lemma relabel_fixed v rest :
  forallb (λ kv : string * string,
             if decide (kv.1 = v) then bool_decide (kv.2 = v) else true) rest = true →
  foldl relabel v rest = v.
Proof.
  induction rest as [|[k' v'] rest IH]; [done|].
  cbn [forallb foldl fst snd]. intros [Hh Ht]%andb_true_iff.
  unfold relabel at 2. cbn [fst snd]. destruct (decide (v = k')) as [->|Hne].
  - rewrite decide_True in Hh by done. apply bool_decide_eq_true in Hh as ->. auto.
  - auto.
Qed.

Lemma relabel_dict_get mapping label :
  settled mapping = true →
  foldl relabel label mapping = default label (dict_get mapping label).
Proof.
  revert label. induction mapping as [|[k v] rest IH]; intros label; [done|].
  cbn [settled foldl dict_get]. intros [Hv Hs]%andb_true_iff.
  unfold relabel at 2. cbn [fst snd].
  destruct (decide (label = k)) as [->|Hne].
  - rewrite decide_True by done. by apply relabel_fixed.
  - rewrite decide_False by done. by apply IH.
Qed.

Lemma renamed_column_mapping d : renamed column_mapping d = standardised d.
Proof.
  rewrite renamed_relabel. apply list_fmap_ext. intros i [n s] _. cbn [fst snd].
  f_equal. by apply relabel_dict_get.
Qed.

(** ** What [clean_dataframe] returns, and when *)

Section Runs.
Context `{PyLib}.
Variable now : Z.

(** The table that is returned: the kept rows, the features, the metadata. *)
Definition cleaned_table (T R S : Series) (d : DataFrame) : DataFrame :=
  let keep := kept (values T) (values (to_numeric R)) (values S) in
  add_metadata now
    (featured (masked keep T)
              (masked keep (to_numeric R))
              (masked keep (smap strip_title DObject S))
              (selected T R S d)).

(** What [clean_dataframe] needs of the table, its columns under their
    standard names, to return: one review, one rating and one sentiment
    column, [.str] on the review column and on the sentiment cells of the
    rows whose review and rating are valid, and no two [review_length]
    columns. *)
Definition accepts (T R S : Series) (d : DataFrame) : Prop :=
  named "review_text" d = [T] ∧ named "rating" d = [R] ∧ named "sentiment" d = [S] ∧
  str_accessor T = Ok T ∧
  str_accessor (rated_sentiment T R S) = Ok (rated_sentiment T R S) ∧
  length (named "review_length" d) ≤ 1.

Lemma selected_featurable T R S d :
  accepts T R S d →
  let keep := kept (values T) (values (to_numeric R)) (values S) in
  featurable (masked keep T)
             (masked keep (to_numeric R))
             (masked keep (smap strip_title DObject S))
             (selected T R S d).
Proof.
  intros (HT & HR & HS & HTs & HSs & Hone) keep. unfold selected. fold keep.
  unfold featurable. rewrite !named_masked.
  rewrite (named_set_column_ne "review_text"), (named_set_column_ne "review_text"), HT by done.
  rewrite (named_set_column_ne "rating" "sentiment") by done.
  rewrite (named_set_column_eq "rating" _ R) by done.
  rewrite (named_set_column_eq "sentiment" _ S) by (by rewrite named_set_column_ne).
  rewrite (named_set_column_ne "review_length"), (named_set_column_ne "review_length") by done.
  rewrite length_fmap. split_and!; try done.
  apply str_accessor_iff, str_ok_strings; [by apply str_accessor_iff|].
  apply kept_strings.
Qed.

Lemma required_present d :
  named "review_text" d ≠ [] → named "rating" d ≠ [] → named "sentiment" d ≠ [] →
  filter (λ col, col ∉ columns d) required_columns = [].
Proof.
  intros HT HR HS. unfold required_columns.
  assert (∀ name, named name d ≠ [] → ¬ (name ∉ columns d)) as Hin.
  { intros name Hn Hout. by apply named_nil in Hout. }
  rewrite filter_cons_False by auto.
  rewrite filter_cons_False by auto.
  rewrite filter_cons_False by auto.
  done.
Qed.

Lemma clean_frame_accepts d T R S :
  accepts T R S (standardised d) →
  clean_frame now d = Ok (cleaned_table T R S (standardised d)).
Proof.
  intros Hacc. pose proof Hacc as (HT & HR & HS & HTs & HSs & Hone).
  unfold clean_frame. rewrite renamed_column_mapping. cbn zeta.
  rewrite decide_True by (apply required_present; congruence).
  rewrite (filter_rows_eq _ T R S HT HR HS).
  apply str_accessor_iff in HTs, HSs. rewrite HTs, HSs. cbn [andb rbind].
  pose proof (selected_featurable _ _ _ _ Hacc) as Hfe.
  pose proof (add_features_frame_normal _ _ _ _ Hfe) as Hn.
  rewrite Hn. cbn [rbind]. unfold cleaned_table. reflexivity.
Qed.

Lemma clean_frame_ok d d' :
  clean_frame now d = Ok d' →
  ∃ T R S, accepts T R S (standardised d) ∧ d' = cleaned_table T R S (standardised d).
Proof.
  intros Hd'. pose proof Hd' as Hf. unfold clean_frame in Hf.
  rewrite renamed_column_mapping in Hf. cbn zeta in Hf.
  destruct (decide _) as [_|_]; [|done].
  apply rbind_ok in Hf as (d8 & Hd8 & Hf).
  destruct (filter_rows_inv _ _ Hd8) as (T & R & S & HT & HR & HS).
  rewrite (filter_rows_eq _ T R S HT HR HS) in Hd8.
  destruct (str_ok T) eqn:HTs; [|done].
  destruct (str_ok (rated_sentiment T R S)) eqn:HSs; [|done].
  cbn [andb] in Hd8. injection Hd8 as <-.
  apply rbind_ok in Hf as (d9 & Hd9 & _).
  apply add_features_frame_inv in Hd9 as (T8 & R8 & S8 & (_ & _ & _ & _ & Hone) & _).
  unfold selected in Hone.
  rewrite named_masked, length_fmap in Hone.
  rewrite !(named_set_column_ne "review_length") in Hone by done.
  apply str_accessor_iff in HTs, HSs.
  assert (accepts T R S (standardised d)) as Hacc by (by split_and!).
  exists T, R, S. split; [done|].
  pose proof (clean_frame_accepts d T R S Hacc) as Hok.
  rewrite Hd' in Hok. injection Hok as ->. reflexivity.
Qed.

(** A call that returns made a new object, the newest of the store, and it
    holds the table [clean_frame] computes. *)
Lemma clean_dataframe_ok_inv df h r h' :
  clean_dataframe now df h = (Ok r, h') →
  ∃ d d' hp, h !! df = Some d ∧ h `prefix_of` hp ∧ r = length hp ∧ h' = hp ++ [d'] ∧
    clean_frame now d = Ok d'.
Proof.
  intros Hrun. destruct (h !! df) as [d|] eqn:Hdf.
  - destruct (clean_dataframe_ends h now df d Hdf) as (hp & Hp & Hout).
    rewrite Hrun in Hout. destruct (clean_frame now d) as [d'|e] eqn:Hc; [|done].
    injection Hout as -> ->. exists d, d', hp. by split_and!.
  - unfold clean_dataframe, copy, bind, load in Hrun. by rewrite Hdf in Hrun.
Qed.

Lemma clean_dataframe_raise_inv df h d e :
  h !! df = Some d → clean_frame now d = Raise e →
  ∃ hp, h `prefix_of` hp ∧ clean_dataframe now df h = (Raise e, hp).
Proof.
  intros Hdf He. destruct (clean_dataframe_ends h now df d Hdf) as (hp & Hp & Hout).
  rewrite He in Hout. by exists hp.
Qed.


End Runs.

(** ** Columns of the returned table *)

Lemma columns_standardised d : columns (standardised d) = standard_name <$> columns d.
Proof. unfold columns, standardised. by rewrite <- !list_fmap_compose. Qed.

(** [df[name] = ...] on the list of labels. *)
Definition add_label (cs : list string) (name : string) : list string :=
  if decide (name ∈ cs) then cs else cs ++ [name].

Lemma columns_set_column_label name s d :
  columns (set_column name s d) = add_label (columns d) name.
Proof. apply columns_set_column. Qed.

Lemma filter_ext_in {A} (P Q : A → Prop) `{!∀ x, Decision (P x), !∀ x, Decision (Q x)}
    (l : list A) :
  (∀ x, x ∈ l → P x ↔ Q x) → filter P l = filter Q l.
Proof.
  induction l as [|x l IH]; intros Hl; [done|].
  rewrite !filter_cons. rewrite IH by (intros; apply Hl; by right).
  destruct (decide (P x)) as [HP|HP], (decide (Q x)) as [HQ|HQ]; try done.
  - by apply Hl in HP; [|left].
  - by apply Hl in HQ; [|left].
Qed.

Lemma add_labels_fresh cs names :
  NoDup names →
  foldl add_label cs names = cs ++ filter (λ n, n ∉ cs) names.
Proof.
  intros Hnd. revert cs. induction Hnd as [|n names Hn Hnd IH]; intros cs.
  - by rewrite app_nil_r.
  - cbn [foldl]. rewrite IH. unfold add_label.
    destruct (decide (n ∈ cs)) as [Hin|Hout].
    + by rewrite filter_cons_False by auto.
    + rewrite filter_cons_True by done. rewrite <- app_assoc. cbn [app]. do 2 f_equal.
      apply filter_ext_in. intros x Hx.
      rewrite not_elem_of_app, list_elem_of_singleton. split; [tauto|].
      intros Hxc. split; [done|]. by intros ->.
Qed.

Section Table.
Context `{PyLib}.
Variable now : Z.

Definition metadata_columns : list string := ["ingestion_timestamp"; "data_source"].

(** The columns [clean_dataframe] assigns to. *)
Definition written_columns : list string :=
  ["rating"; "sentiment"] ++ feature_columns ++ metadata_columns.

Lemma named_add_metadata name d :
  name ∉ metadata_columns → named name (add_metadata now d) = named name d.
Proof.
  unfold metadata_columns. rewrite !not_elem_of_cons. intros (? & ? & _).
  unfold add_metadata. cbn zeta. by rewrite !named_set_column_ne.
Qed.

Lemma named_featured name T R S d :
  name ∉ feature_columns → named name (featured T R S d) = named name d.
Proof.
  unfold feature_columns. rewrite !not_elem_of_cons. intros (? & ? & ? & ? & ? & _).
  unfold featured. by rewrite !named_set_column_ne.
Qed.

Lemma columns_add_metadata d :
  columns (add_metadata now d) = foldl add_label (columns d) metadata_columns.
Proof. unfold add_metadata. cbn zeta. by rewrite !columns_set_column_label. Qed.

Lemma columns_featured T R S d :
  columns (featured T R S d) = foldl add_label (columns d) feature_columns.
Proof. unfold featured. by rewrite !columns_set_column_label. Qed.

Lemma add_label_present cs name : name ∈ cs → add_label cs name = cs.
Proof. intros. unfold add_label. by rewrite decide_True. Qed.

Lemma columns_selected T R S d :
  named "rating" d = [R] → named "sentiment" d = [S] →
  columns (selected T R S d) = columns d.
Proof.
  intros HR HS. unfold selected.
  rewrite columns_take_rows, !columns_set_column_label.
  assert (∀ name, named name d ≠ [] → name ∈ columns d) as Hin.
  { intros name Hn. destruct (decide (name ∈ columns d)) as [|Hout]; [done|].
    by apply named_nil in Hout. }
  rewrite (add_label_present _ "rating") by (apply Hin; congruence).
  rewrite (add_label_present _ "sentiment") by (apply Hin; congruence).
  done.
Qed.

Lemma columns_cleaned_table T R S d :
  named "rating" d = [R] → named "sentiment" d = [S] →
  columns (cleaned_table now T R S d)
  = columns d ++ filter (λ n, n ∉ columns d) (feature_columns ++ metadata_columns).
Proof.
  intros HR HS. unfold cleaned_table. cbn zeta.
  rewrite columns_add_metadata, columns_featured, (columns_selected _ _ _ _ HR HS).
  rewrite <- foldl_app. apply add_labels_fresh.
  unfold feature_columns, metadata_columns. cbn [app].
  apply (bool_decide_unpack _). vm_compute. exact I.
Qed.

Lemma named_selected name T R S d :
  name ≠ "rating" → name ≠ "sentiment" →
  named name (selected T R S d)
  = masked (kept (values T) (values (to_numeric R)) (values S)) <$> named name d.
Proof.
  intros. unfold selected. by rewrite named_masked, !named_set_column_ne.
Qed.

Lemma named_cleaned_table name T R S d :
  name ∉ written_columns →
  named name (cleaned_table now T R S d)
  = masked (kept (values T) (values (to_numeric R)) (values S)) <$> named name d.
Proof.
  unfold written_columns. rewrite !not_elem_of_app, !not_elem_of_cons.
  intros ((? & ? & _) & Hf & Hm). unfold cleaned_table. cbn zeta.
  rewrite named_add_metadata, named_featured by done. by apply named_selected.
Qed.

Lemma named_rating_cleaned_table T R S d :
  named "rating" d = [R] →
  named "rating" (cleaned_table now T R S d)
  = [masked (kept (values T) (values (to_numeric R)) (values S)) (to_numeric R)].
Proof.
  intros HR. unfold cleaned_table. cbn zeta.
  rewrite named_add_metadata, named_featured; cycle 1.
  { unfold feature_columns. rewrite !not_elem_of_cons. split_and!; try done. apply not_elem_of_nil. }
  { unfold metadata_columns. rewrite !not_elem_of_cons. split_and!; try done. apply not_elem_of_nil. }
  unfold selected. rewrite named_masked, named_set_column_ne by done.
  by rewrite (named_set_column_eq _ _ R).
Qed.

Lemma named_sentiment_cleaned_table T R S d :
  named "sentiment" d = [S] →
  named "sentiment" (cleaned_table now T R S d)
  = [masked (kept (values T) (values (to_numeric R)) (values S)) (smap strip_title DObject S)].
Proof.
  intros HS. unfold cleaned_table. cbn zeta.
  rewrite named_add_metadata, named_featured; cycle 1.
  { unfold feature_columns. rewrite !not_elem_of_cons. split_and!; try done. apply not_elem_of_nil. }
  { unfold metadata_columns. rewrite !not_elem_of_cons. split_and!; try done. apply not_elem_of_nil. }
  unfold selected. rewrite named_masked.
  by rewrite (named_set_column_eq _ _ S) by (by rewrite named_set_column_ne).
Qed.

End Table.

(** ** Rows and the cells of the feature columns *)

Lemma row_elem_of name c d i s :
  s ∈ named name d → values s !! i = Some c → (name, c) ∈ row d i.
Proof.
  unfold named, row. intros ([n s'] & -> & [Hn Hin]%list_elem_of_filter)%list_elem_of_fmap Hc.
  cbn [fst snd] in *. subst n. apply list_elem_of_omap. exists (name, s').
  split; [done|]. cbn [fst snd]. by rewrite Hc.
Qed.

(** Row [i] of [d] has the cell [c] under [name], and no other. *)
Definition cell_is (d : DataFrame) (i : nat) (name : string) (c : Cell) : Prop :=
  (name, c) ∈ row d i ∧ ∀ c', (name, c') ∈ row d i → c' = c.

Lemma cell_is_replicate d i name n X c :
  named name d = replicate (S n) X → values X !! i = Some c → cell_is d i name c.
Proof.
  intros Hn Hc. split.
  - apply (row_elem_of _ _ _ _ X); [|done]. rewrite Hn. by left.
  - intros c' (s & Hs & Hc')%elem_of_row. rewrite Hn in Hs.
    apply elem_of_replicate in Hs as [-> _]. congruence.
Qed.

Lemma row_named_one name c d i s :
  named name d = [s] → (name, c) ∈ row d i → values s !! i = Some c.
Proof.
  intros Hs (s' & Hin & Hc)%elem_of_row. rewrite Hs in Hin.
  by apply list_elem_of_singleton in Hin as ->.
Qed.

(** The labels [pd.cut] gives on the ranges the cleaning leaves. *)
Definition length_label (n : nat) : string :=
  if n <=? 50 then "Short" else if n <=? 150 then "Medium"
  else if n <=? 500 then "Long" else "Very Long".

Definition rating_label (q : Q) : string :=
  if Qle_bool q 2 then "Poor" else if Qle_bool q 3 then "Fair"
  else if Qle_bool q 4 then "Good" else "Excellent".

Definition sentiment_score (s : string) : Q :=
  if decide (s = "Positive") then 1
  else if decide (s = "Negative") then 0 else 1 # 2.

Lemma num_leb_of_nat a b : num_leb (of_nat a) (of_nat b) = (a <=? b).
Proof.
  unfold of_nat. cbn [num_leb]. destruct (Nat.leb_spec a b) as [Hle|Hlt].
  - apply Qle_bool_iff. rewrite <- Zle_Qle. lia.
  - apply not_true_is_false. intros Hq%Qle_bool_iff. rewrite <- Zle_Qle in Hq. lia.
Qed.

Lemma num_ltb_of_nat a b : num_ltb (of_nat a) (of_nat b) = (a <? b).
Proof.
  unfold num_ltb. rewrite num_leb_of_nat.
  destruct (Nat.leb_spec b a), (Nat.ltb_spec a b); try done; lia.
Qed.

Lemma cut_length n :
  0 < n →
  cut [int 0; int 50; int 150; int 500; inf] ["Short"; "Medium"; "Long"; "Very Long"]
      (of_nat n)
  = Str (length_label n).
Proof.
  intros Hn. unfold length_label, int, inf. cbn [cut].
  rewrite !num_ltb_of_nat, !num_leb_of_nat.
  destruct (Nat.leb_spec n 50), (Nat.leb_spec n 150), (Nat.leb_spec n 500),
    (Nat.ltb_spec 0 n), (Nat.ltb_spec 50 n), (Nat.ltb_spec 150 n), (Nat.ltb_spec 500 n);
    try lia; done.
Qed.

Lemma num_leb_fin q n : num_leb (Fin q) (of_nat n) = Qle_bool q (inject_Z (Z.of_nat n)).
Proof. done. Qed.

Lemma num_ltb_fin q n : num_ltb (of_nat n) (Fin q) = negb (Qle_bool q (inject_Z (Z.of_nat n))).
Proof. done. Qed.

Lemma cut_rating q :
  (1 <= q)%Q → (q <= 5)%Q →
  cut [int 0; int 2; int 3; int 4; int 5] ["Poor"; "Fair"; "Good"; "Excellent"] (Fin q)
  = Str (rating_label q).
Proof.
  intros H1 H5. unfold rating_label, int. cbn [cut].
  rewrite !num_ltb_fin, !num_leb_fin.
  change (inject_Z (Z.of_nat 0)) with 0%Q. change (inject_Z (Z.of_nat 2)) with 2%Q.
  change (inject_Z (Z.of_nat 3)) with 3%Q. change (inject_Z (Z.of_nat 4)) with 4%Q.
  change (inject_Z (Z.of_nat 5)) with 5%Q.
  assert (Qle_bool q 0 = false) as ->.
  { apply not_true_is_false. intros Hq%Qle_bool_iff.
    pose proof (Qle_trans _ _ _ H1 Hq) as Hc. by apply Hc. }
  assert (Qle_bool q 5 = true) as -> by (by apply Qle_bool_iff).
  cbn [negb andb].
  destruct (Qle_bool q 2) eqn:H2; [done|]. cbn [negb andb].
  destruct (Qle_bool q 3) eqn:H3; [done|]. cbn [negb andb].
  destruct (Qle_bool q 4) eqn:H4; done.
Qed.

Lemma map_sentiment s :
  s ∈ valid_sentiments →
  map_dict [("Positive", Fin 1); ("Negative", Fin 0); ("Neutral", Fin (1 # 2))] (Str s)
  = Num (Fin (sentiment_score s)).
Proof.
  unfold valid_sentiments. rewrite !elem_of_cons, elem_of_nil.
  intros [->|[->|[->|[]]]]; done.
Qed.

Section FeatureCells.
Context `{PyLib}.

Lemma named_featured_length T R S d :
  named "review_length" (featured T R S d)
  = replicate (length (named "review_length" d) `max` 1) (smap str_len DNumeric T).
Proof.
  unfold featured. rewrite !(named_set_column_ne "review_length") by done.
  by rewrite named_set_column_self.
Qed.

Lemma named_featured_words T R S d :
  named "review_word_count" (featured T R S d)
  = replicate (length (named "review_word_count" d) `max` 1) (smap word_count DNumeric T).
Proof.
  unfold featured. rewrite !(named_set_column_ne "review_word_count") by done.
  rewrite named_set_column_self. by rewrite named_set_column_ne.
Qed.

Lemma named_featured_length_category T R S d :
  named "review_length_category" (featured T R S d)
  = replicate (length (named "review_length_category" d) `max` 1)
      (cut_series [int 0; int 50; int 150; int 500; inf]
                      ["Short"; "Medium"; "Long"; "Very Long"] (smap str_len DNumeric T)).
Proof.
  unfold featured. rewrite !(named_set_column_ne "review_length_category") by done.
  rewrite named_set_column_self. by rewrite !named_set_column_ne.
Qed.

Lemma named_featured_rating_category T R S d :
  named "rating_category" (featured T R S d)
  = replicate (length (named "rating_category" d) `max` 1)
      (cut_series [int 0; int 2; int 3; int 4; int 5]
                      ["Poor"; "Fair"; "Good"; "Excellent"] R).
Proof.
  unfold featured. rewrite !(named_set_column_ne "rating_category") by done.
  rewrite named_set_column_self. by rewrite !named_set_column_ne.
Qed.

Lemma named_featured_sentiment_binary T R S d :
  named "sentiment_binary" (featured T R S d)
  = replicate (length (named "sentiment_binary" d) `max` 1)
      (smap (map_dict [("Positive", Fin 1); ("Negative", Fin 0); ("Neutral", Fin (1 # 2))])
            DNumeric S).
Proof.
  unfold featured. rewrite named_set_column_self. by rewrite !named_set_column_ne.
Qed.

Lemma max_one n : ∃ k, n `max` 1 = S k.
Proof. exists (pred (n `max` 1)). lia. Qed.

Lemma values_smap_lookup f ty s i c :
  values s !! i = Some c → values (smap f ty s) !! i = Some (f c).
Proof. intros Hc. unfold smap. cbn [values]. by rewrite list_lookup_fmap, Hc. Qed.

End FeatureCells.

(** ** Runs of the loop and of [add_features] *)

Lemma rename_loop_run mapping r h d :
  h !! r = Some d →
  ∃ r' h', rename_loop mapping r h = (Ok r', h') ∧ h `prefix_of` h' ∧
           h' !! r' = Some (renamed mapping d).
Proof.
  revert r h d. induction mapping as [|[k v] rest IH]; intros r h d Hr.
  - by exists r, h.
  - cbn [rename_loop]. unfold bind at 1, load at 1. rewrite Hr.
    change (renamed ((k, v) :: rest) d) with (renamed rest (rename_columns k v d)).
    destruct (decide (k ∈ columns d)) as [Hin|Hout].
    + unfold bind at 1, rename, bind, load, alloc. rewrite Hr.
      destruct (IH (length h) (h ++ [rename_columns k v d]) (rename_columns k v d))
        as (r' & h' & Hrun & Hp & Hl); [apply lookup_newest|].
      exists r', h'. split; [exact Hrun|]. split; [|done].
      etrans; [|exact Hp]. by apply prefix_app_r.
    + rewrite rename_absent by done. by apply IH.
Qed.








Section Local.
Variable df : loc.
Variable h0 : Heap.





End Local.


Lemma clean_dataframe_ok_cleaned `{PyLib} now df h r h' :
  clean_dataframe now df h = (Ok r, h') → ∃ d', h' !! r = Some d' ∧ cleaned d'.
Proof.
  intros Hrun. pose proof (clean_dataframe_spec now h df h) as Hs. rewrite Hrun in Hs.
  destruct Hs as (d & Hc & _ & _ & Hd); [done|]. eauto.
Qed.

(** ** Tables for the examples *)

(** The header of the Play Store user-reviews file: no rating column. *)
Definition user_reviews : DataFrame :=
  [ ("App", mkSeries DObject [Str "Maps"; Str "Mail"]);
    ("Translated_Review", mkSeries DObject [Str "Great app"; Str "Bad one"]);
    ("Sentiment", mkSeries DObject [Str "Positive"; Str "Negative"]);
    ("Sentiment_Polarity", mkSeries DNumeric [Num (Fin 1); Num (Fin (-1))]);
    ("Sentiment_Subjectivity", mkSeries DNumeric [Num (Fin (1 # 2)); Num (Fin 1)]) ].

(** A file that has the review both as written and translated. *)
Definition two_reviews : DataFrame :=
  [ ("Review", mkSeries DObject [Str "Sehr gut"; Str "Schlecht"]);
    ("Translated_Review", mkSeries DObject [Str "Very good"; Str "Bad one"]);
    ("Sentiment", mkSeries DObject [Str "Positive"; Str "Negative"]);
    ("Rating", mkSeries DNumeric [Num (Fin 5); Num (Fin 1)]) ].



(** ** Theorems *)

(** X1. The renaming loop of [clean_dataframe] returns a table that differs
    from the one it started with in its labels only: every column keeps its
    place, dtype and cells, and its label [l] becomes
    [column_mapping.get(l, l)]; the loop raises nothing and leaves the
    objects of the store as they were. *)
Theorem rename_loop_standardises r h d :
  h !! r = Some d →
  ∃ r' h', rename_loop column_mapping r h = (Ok r', h') ∧ h `prefix_of` h' ∧
           h' !! r' = Some ((λ c, (standard_name c.1, c.2)) <$> d).
Proof.
  intros Hr. destruct (rename_loop_run column_mapping r h d Hr) as (r' & h' & Hrun & Hp & Hl).
  exists r', h'. by rewrite renamed_column_mapping in Hl.
Qed.

Lemma rename_loop_standardises_witness :
  ∃ r' h', rename_loop column_mapping 0 [sample] = (Ok r', h') ∧ [sample] `prefix_of` h' ∧
           h' !! r' = Some ((λ c, (standard_name c.1, c.2)) <$> sample).
Proof. apply (rename_loop_standardises 0 [sample] sample). reflexivity. Defined.

(** X2. When no column of the table has one of the required names
    [review_text], [sentiment], [rating] as its standard name,
    [clean_dataframe] raises [ValueError], and the store keeps every object
    it had. *)
Theorem clean_dataframe_missing_column `{PyLib} now df h d col :
  h !! df = Some d →
  col ∈ required_columns →
  col ∉ standard_name <$> columns d →
  ∃ h', clean_dataframe now df h = (Raise ValueError, h') ∧ h `prefix_of` h'.
Proof.
  intros Hdf Hreq Hout.
  assert (clean_frame now d = Raise ValueError) as Hc.
  { unfold clean_frame. rewrite renamed_column_mapping. cbn zeta.
    rewrite decide_False; [done|]. intros Hnil.
    assert (col ∈ filter (λ col, col ∉ columns (standardised d)) required_columns) as Hin.
    { apply list_elem_of_filter. by rewrite columns_standardised. }
    rewrite Hnil in Hin. by apply not_elem_of_nil in Hin. }
  destruct (clean_dataframe_raise_inv now df h d ValueError Hdf Hc) as (hp & Hp & Hrun).
  by exists hp.
Qed.

Lemma clean_dataframe_missing_column_witness :
  ∃ h', clean_dataframe (H := ascii_lib) 0 0 [user_reviews] = (Raise ValueError, h') ∧
        [user_reviews] `prefix_of` h'.
Proof.
  apply (clean_dataframe_missing_column (H := ascii_lib) 0 0 [user_reviews] user_reviews "rating").
  - reflexivity.
  - apply (bool_decide_unpack _). vm_compute. exact I.
  - apply (bool_decide_unpack _). vm_compute. exact I.
Defined.

(** X3. When two columns of the table have the standard name [review_text]
    (and [rating] and [sentiment] are there), [clean_dataframe] raises
    [AttributeError]: [df_clean['review_text']] is then a DataFrame, which
    has no [.str]. *)
Theorem clean_dataframe_duplicate_review `{PyLib} now df h d :
  h !! df = Some d →
  2 ≤ length (named "review_text" (standardised d)) →
  "rating" ∈ columns (standardised d) →
  "sentiment" ∈ columns (standardised d) →
  ∃ h', clean_dataframe now df h = (Raise AttributeError, h') ∧ h `prefix_of` h'.
Proof.
  intros Hdf Htwo HR HS.
  assert (clean_frame now d = Raise AttributeError) as Hc.
  { unfold clean_frame. rewrite renamed_column_mapping. cbn zeta.
    rewrite decide_True; cycle 1.
    { apply required_present; [|by apply named_elem_of..].
      intros Hnil. rewrite Hnil in Htwo. cbn in Htwo. lia. }
    unfold filter_rows, dropna.
    destruct (named "review_text" (standardised d)) as [|x [|y l]] eqn:Hn;
      [cbn in Htwo; lia..|].
    rewrite !fmap_cons. cbn [rbind].
    unfold str_of, getitem. rewrite named_masked, Hn, !fmap_cons. done. }
  destruct (clean_dataframe_raise_inv now df h d AttributeError Hdf Hc) as (hp & Hp & Hrun).
  by exists hp.
Qed.

Lemma clean_dataframe_duplicate_review_witness :
  ∃ h', clean_dataframe (H := ascii_lib) 0 0 [two_reviews] = (Raise AttributeError, h') ∧
        [two_reviews] `prefix_of` h'.
Proof.
  apply (clean_dataframe_duplicate_review (H := ascii_lib) 0 0 [two_reviews] two_reviews).
  - reflexivity.
  - vm_compute. lia.
  - apply (bool_decide_unpack _). vm_compute. exact I.
  - apply (bool_decide_unpack _). vm_compute. exact I.
Defined.

(** X4. The table [clean_dataframe] returns holds the rows of the input that
    are valid, [valid_row], in their order, and nothing else: with [T], [R]
    and [S] the review, rating and sentiment columns of the input under
    their standard names, a row is kept when its review is a string of 3
    characters (code points) or more, its rating as [pd.to_numeric] reads
    the column is from 1 to 5, and its sentiment, stripped and title-cased,
    is one of the three valid ones; the returned review column is [T]
    without the other rows, the rating column is [pd.to_numeric] of [R] and
    the sentiment column the stripped and title-cased sentiments of the
    same rows, and every column that the function does not assign to loses
    the same rows and is otherwise as it was. *)
Theorem clean_dataframe_rows `{PyLib} now df h r h' :
  clean_dataframe now df h = (Ok r, h') →
  ∃ d d' T R S,
    h !! df = Some d ∧ h' !! r = Some d' ∧
    named "review_text" (standardised d) = [T] ∧
    named "rating" (standardised d) = [R] ∧
    named "sentiment" (standardised d) = [S] ∧
    let keep := kept (values T) (values (to_numeric R)) (values S) in
    named "review_text" d' = [mkSeries (dtype T) (mask_list keep (values T))] ∧
    named "rating" d'
      = [mkSeries DNumeric (mask_list keep (values (to_numeric R)))] ∧
    named "sentiment" d'
      = [mkSeries DObject (mask_list keep (strip_title <$> values S))] ∧
    ∀ name, name ∉ written_columns →
      named name d'
      = (λ s, mkSeries (dtype s) (mask_list keep (values s))) <$> named name (standardised d).
Proof.
  intros Hrun.
  apply clean_dataframe_ok_inv in Hrun as (d & d' & hp & Hdf & Hp & -> & -> & Hc).
  apply clean_frame_ok in Hc as (T & R & S & (HT & HR & HS & _) & ->).
  exists d, (cleaned_table now T R S (standardised d)), T, R, S.
  split; [done|]. split; [apply lookup_newest|]. split; [done|]. split; [done|].
  split; [done|]. cbn zeta. split_and!.
  - rewrite named_cleaned_table, HT; [done|].
    apply (bool_decide_unpack _). vm_compute. exact I.
  - rewrite named_rating_cleaned_table by done. unfold masked.
    by rewrite dtype_to_numeric.
  - by rewrite named_sentiment_cleaned_table.
  - intros name Hname. by rewrite named_cleaned_table.
Qed.

Lemma clean_dataframe_rows_witness :
  ∃ d d' T R S,
    [sample] !! 0 = Some d ∧
    (clean_dataframe (H := ascii_lib) 0 0 [sample]).2 !! 12 = Some d' ∧
    named "review_text" (standardised d) = [T] ∧
    named "rating" (standardised d) = [R] ∧
    named "sentiment" (standardised d) = [S] ∧
    let keep := kept (H := ascii_lib) (values T) (values (to_numeric (H := ascii_lib) R))
                     (values S) in
    named "review_text" d' = [mkSeries (dtype T) (mask_list keep (values T))] ∧
    named "rating" d'
      = [mkSeries DNumeric (mask_list keep (values (to_numeric (H := ascii_lib) R)))] ∧
    named "sentiment" d'
      = [mkSeries DObject (mask_list keep (strip_title (H := ascii_lib) <$> values S))] ∧
    ∀ name, name ∉ written_columns →
      named name d'
      = (λ s, mkSeries (dtype s) (mask_list keep (values s))) <$> named name (standardised d).
Proof.
  apply (clean_dataframe_rows (H := ascii_lib) 0 0 [sample] 12
           (clean_dataframe (H := ascii_lib) 0 0 [sample]).2).
  vm_compute. reflexivity.
Defined.



(** X6. In every row of the table [clean_dataframe] returns, the feature
    columns are what the row's review, rating and sentiment determine:
    [review_length] is the number of characters (code points, [len]) of the
    review and
    [review_word_count] the number of its words, [review_length_category]
    is Short up to 50 characters, Medium up to 150, Long up to 500 and Very
    Long above, [rating_category] is Poor up to 2, Fair up to 3, Good up to
    4 and Excellent above, and [sentiment_binary] is 1, 0 or 0.5; none of
    them is missing. *)
Theorem clean_dataframe_features `{PyLib} now df h r h' :
  clean_dataframe now df h = (Ok r, h') →
  ∃ d', h' !! r = Some d' ∧
    ∀ i t q s,
      ("review_text", Str t) ∈ row d' i →
      ("rating", Num (Fin q)) ∈ row d' i →
      ("sentiment", Str s) ∈ row d' i →
      cell_is d' i "review_length" (Num (of_nat (len t))) ∧
      cell_is d' i "review_word_count" (Num (of_nat (length (str_split t)))) ∧
      cell_is d' i "review_length_category" (Str (length_label (len t))) ∧
      cell_is d' i "rating_category" (Str (rating_label q)) ∧
      cell_is d' i "sentiment_binary" (Num (Fin (sentiment_score s))).
Proof.
  intros Hrun.
  destruct (clean_dataframe_ok_cleaned now df h r h' Hrun) as (d2 & Hd2 & Hrev & Hrat & Hsen).
  apply clean_dataframe_ok_inv in Hrun as (d & d' & hp & Hdf & Hp & -> & -> & Hc).
  rewrite lookup_newest in Hd2. injection Hd2 as <-.
  exists d'. split; [apply lookup_newest|]. intros i t q s Ht Hq Hs.
  destruct (col_row _ _ _ _ _ Hrev Ht) as (t' & [= <-] & Hlen).
  destruct (col_row _ _ _ _ _ Hrat Hq) as (q' & [= <-] & Hq1 & Hq5).
  destruct (col_row _ _ _ _ _ Hsen Hs) as (s' & [= <-] & Hval).
  apply clean_frame_ok in Hc as (T & R & S & Hacc & ->).
  pose proof Hacc as (_ & HR & HS & _).
  pose proof (selected_featurable T R S _ Hacc) as (HT8 & _ & HR8 & HS8 & _).
  cbn zeta in HT8, HR8, HS8.
  set (keep := kept (values T) (values (to_numeric R)) (values S)) in *.
  set (T8 := masked keep T) in *.
  set (R8 := masked keep (to_numeric R)) in *.
  set (S8 := masked keep (smap strip_title DObject S)) in *.
  assert (∀ name, name ∉ feature_columns → name ∉ metadata_columns →
            named name (cleaned_table now T R S (standardised d))
            = named name (selected T R S (standardised d))) as Hsame.
  { intros name Hf Hm. unfold cleaned_table. cbn zeta.
    by rewrite named_add_metadata, named_featured. }
  assert (values T8 !! i = Some (Str t)) as HTi.
  { eapply row_named_one; [|exact Ht]. rewrite Hsame; [done|..];
      apply (bool_decide_unpack _); vm_compute; exact I. }
  assert (values R8 !! i = Some (Num (Fin q))) as HRi.
  { eapply row_named_one; [|exact Hq]. rewrite Hsame; [done|..];
      apply (bool_decide_unpack _); vm_compute; exact I. }
  assert (values S8 !! i = Some (Str s)) as HSi.
  { eapply row_named_one; [|exact Hs]. rewrite Hsame; [done|..];
      apply (bool_decide_unpack _); vm_compute; exact I. }
  assert (∀ name, name ∉ metadata_columns →
            named name (cleaned_table now T R S (standardised d))
            = named name (featured T8 R8 S8 (selected T R S (standardised d)))) as Hfeat.
  { intros name Hm. unfold cleaned_table. cbn zeta. by rewrite named_add_metadata. }
  split_and!.
  - destruct (max_one (length (named "review_length" (selected T R S (standardised d)))))
      as [k Hk].
    eapply (cell_is_replicate _ _ _ k).
    + rewrite Hfeat by (apply (bool_decide_unpack _); vm_compute; exact I).
      by rewrite named_featured_length, Hk.
    + by rewrite (values_smap_lookup _ _ _ _ _ HTi).
  - destruct (max_one (length (named "review_word_count" (selected T R S (standardised d)))))
      as [k Hk].
    eapply (cell_is_replicate _ _ _ k).
    + rewrite Hfeat by (apply (bool_decide_unpack _); vm_compute; exact I).
      by rewrite named_featured_words, Hk.
    + by rewrite (values_smap_lookup _ _ _ _ _ HTi).
  - destruct (max_one (length (named "review_length_category"
                                 (selected T R S (standardised d))))) as [k Hk].
    eapply (cell_is_replicate _ _ _ k).
    + rewrite Hfeat by (apply (bool_decide_unpack _); vm_compute; exact I).
      by rewrite named_featured_length_category, Hk.
    + unfold cut_series.
      rewrite (values_smap_lookup _ _ _ _ _ (values_smap_lookup str_len DNumeric _ _ _ HTi)).
      cbn [str_len cut_cell]. rewrite cut_length by lia. done.
  - destruct (max_one (length (named "rating_category" (selected T R S (standardised d)))))
      as [k Hk].
    eapply (cell_is_replicate _ _ _ k).
    + rewrite Hfeat by (apply (bool_decide_unpack _); vm_compute; exact I).
      by rewrite named_featured_rating_category, Hk.
    + unfold cut_series. rewrite (values_smap_lookup _ _ _ _ _ HRi). cbn [cut_cell].
      by rewrite cut_rating.
  - destruct (max_one (length (named "sentiment_binary" (selected T R S (standardised d)))))
      as [k Hk].
    eapply (cell_is_replicate _ _ _ k).
    + rewrite Hfeat by (apply (bool_decide_unpack _); vm_compute; exact I).
      by rewrite named_featured_sentiment_binary, Hk.
    + rewrite (values_smap_lookup _ _ _ _ _ HSi). by rewrite map_sentiment.
Qed.

Lemma clean_dataframe_features_witness :
  ∃ d', (clean_dataframe (H := ascii_lib) 0 0 [sample]).2 !! 12 = Some d' ∧
    ∀ i t q s,
      ("review_text", Str t) ∈ row d' i →
      ("rating", Num (Fin q)) ∈ row d' i →
      ("sentiment", Str s) ∈ row d' i →
      cell_is d' i "review_length" (Num (of_nat (len t))) ∧
      cell_is d' i "review_word_count"
        (Num (of_nat (length (str_split (PyLib := ascii_lib) t)))) ∧
      cell_is d' i "review_length_category" (Str (length_label (len t))) ∧
      cell_is d' i "rating_category" (Str (rating_label q)) ∧
      cell_is d' i "sentiment_binary" (Num (Fin (sentiment_score s))).
Proof.
  apply (clean_dataframe_features (H := ascii_lib) 0 0 [sample] 12
           (clean_dataframe (H := ascii_lib) 0 0 [sample]).2).
  vm_compute. reflexivity.
Defined.

(** X7. The labels of the table [clean_dataframe] returns are the standard
    names of the input's labels, in the input's order, followed by those of
    the five feature columns and the two metadata columns that the input
    did not already have, in the order in which they are assigned. *)
Theorem clean_dataframe_columns `{PyLib} now df h r h' :
  clean_dataframe now df h = (Ok r, h') →
  ∃ d d', h !! df = Some d ∧ h' !! r = Some d' ∧
    columns d'
    = (standard_name <$> columns d)
      ++ filter (λ n, n ∉ standard_name <$> columns d)
           ["review_length"; "review_word_count"; "review_length_category";
            "rating_category"; "sentiment_binary"; "ingestion_timestamp"; "data_source"].
Proof.
  intros Hrun.
  apply clean_dataframe_ok_inv in Hrun as (d & d' & hp & Hdf & Hp & -> & -> & Hc).
  apply clean_frame_ok in Hc as (T & R & S & (HT & HR & HS & _) & ->).
  exists d, (cleaned_table now T R S (standardised d)).
  split; [done|]. split; [apply lookup_newest|].
  rewrite (columns_cleaned_table now T R S _ HR HS).
  by rewrite columns_standardised.
Qed.

Lemma clean_dataframe_columns_witness :
  ∃ d d', [sample] !! 0 = Some d ∧
    (clean_dataframe (H := ascii_lib) 0 0 [sample]).2 !! 12 = Some d' ∧
    columns d'
    = (standard_name <$> columns d)
      ++ filter (λ n, n ∉ standard_name <$> columns d)
           ["review_length"; "review_word_count"; "review_length_category";
            "rating_category"; "sentiment_binary"; "ingestion_timestamp"; "data_source"].
Proof.
  apply (clean_dataframe_columns (H := ascii_lib) 0 0 [sample] 12
           (clean_dataframe (H := ascii_lib) 0 0 [sample]).2).
  vm_compute. reflexivity.
Defined.





(** X10. In the table [clean_dataframe] returns, every cell of
    [data_source] is the string [kaggle_google_play_store] and every cell
    of [ingestion_timestamp] is the time of the call. *)
Theorem clean_dataframe_metadata `{PyLib} now df h r h' :
  clean_dataframe now df h = (Ok r, h') →
  ∃ d', h' !! r = Some d' ∧
    "ingestion_timestamp" ∈ columns d' ∧ "data_source" ∈ columns d' ∧
    ∀ i c,
      (("ingestion_timestamp", c) ∈ row d' i → c = Timestamp now) ∧
      (("data_source", c) ∈ row d' i → c = Str "kaggle_google_play_store").
Proof.
  intros Hrun.
  apply clean_dataframe_ok_inv in Hrun as (d & d' & hp & Hdf & Hp & -> & -> & Hc).
  apply clean_frame_ok in Hc as (T & R & S & Hacc & ->).
  eexists. split; [apply lookup_newest|].
  unfold cleaned_table. cbn zeta. generalize (featured (masked (kept (values T) (values (to_numeric R)) (values S)) T)
    (masked (kept (values T) (values (to_numeric R)) (values S)) (to_numeric R))
    (masked (kept (values T) (values (to_numeric R)) (values S)) (smap strip_title DObject S))
    (selected T R S (standardised d))). intros d9.
  unfold add_metadata. cbn zeta.
  set (d10 := set_column "ingestion_timestamp" _ d9).
  assert (∀ name s d, name ∈ columns (set_column name s d)) as Hin.
  { intros name s d0. rewrite columns_set_column_label. unfold add_label.
    case_decide; [done|]. apply elem_of_app. right. by left. }
  split_and!.
  - rewrite columns_set_column_label. unfold add_label. case_decide; [apply Hin|].
    apply elem_of_app. left. apply Hin.
  - apply Hin.
  - intros i c. split.
    + intros (s & Hs & Hc)%elem_of_row.
      rewrite named_set_column_ne in Hs by done. unfold d10 in Hs.
      rewrite named_set_column_self in Hs. apply elem_of_replicate in Hs as [-> _].
      cbn [values] in Hc. by apply list_elem_of_lookup_2, elem_of_replicate in Hc as [-> _].
    + intros (s & Hs & Hc)%elem_of_row.
      rewrite named_set_column_self in Hs. apply elem_of_replicate in Hs as [-> _].
      cbn [values] in Hc. by apply list_elem_of_lookup_2, elem_of_replicate in Hc as [-> _].
Qed.

Lemma clean_dataframe_metadata_witness :
  ∃ d', (clean_dataframe (H := ascii_lib) 0 0 [sample]).2 !! 12 = Some d' ∧
    "ingestion_timestamp" ∈ columns d' ∧ "data_source" ∈ columns d' ∧
    ∀ i c,
      (("ingestion_timestamp", c) ∈ row d' i → c = Timestamp 0) ∧
      (("data_source", c) ∈ row d' i → c = Str "kaggle_google_play_store").
Proof.
  apply (clean_dataframe_metadata (H := ascii_lib) 0 0 [sample] 12
           (clean_dataframe (H := ascii_lib) 0 0 [sample]).2).
  vm_compute. reflexivity.
Defined.
End Cleaning.

(** * Part III: the reading of the statistics

    [scripts/02_statistical_analysis.py] computes its statistics with scipy;
    what it then says about them, the labels and the verdicts of the
    report, is plain Python on floats and sample sizes, embedded here. *)

From Stdlib Require Import Qabs Lqa.
Close Scope Q_scope.

Module Statistics.
Import Ingestion.

(** A Python float: a number, finite or infinite, or nan. *)
Inductive float := Real (x : Number) | Nan.

Definition number_abs (x : Number) : Number :=
  match x with Fin q => Fin (Qabs q) | _ => PosInf end.

(** [abs(x)]. *)
Definition fabs (x : float) : float :=
  match x with Real x => Real (number_abs x) | Nan => Nan end.

(** [a < b] and [a > b]: False when either side is nan. *)
Definition flt (a b : float) : bool :=
  match a, b with Real x, Real y => num_ltb x y | _, _ => false end.

Definition fgt (a b : float) : bool := flt b a.

(** The decimal literals of the script, as the binary64 floats they are. *)
Definition f0_05 : Q := 3602879701896397 # 72057594037927936.
Definition f0_1 : Q := 3602879701896397 # 36028797018963968.
Definition f0_2 : Q := 3602879701896397 # 18014398509481984.
Definition f0_3 : Q := 5404319552844595 # 18014398509481984.
Definition f0_5 : Q := 1 # 2.
Definition f0_7 : Q := 3152519739159347 # 4503599627370496.
Definition f0_8 : Q := 3602879701896397 # 4503599627370496.

Definition lit (q : Q) : float := Real (Fin q).

(** [perform_hypothesis_test]: the effect size interpretation. *)
Definition effect_interpretation (cohens_d : float) : string :=
  if flt (fabs cohens_d) (lit f0_2) then "negligible"
  else if flt (fabs cohens_d) (lit f0_5) then "small"
  else if flt (fabs cohens_d) (lit f0_8) then "medium"
  else "large".

(** [analyze_length_rating_correlation]: the correlation strength. *)
Definition correlation_strength (length_rating_pearson : float) : string :=
  if flt (fabs length_rating_pearson) (lit f0_1) then "negligible"
  else if flt (fabs length_rating_pearson) (lit f0_3) then "weak"
  else if flt (fabs length_rating_pearson) (lit f0_5) then "moderate"
  else if flt (fabs length_rating_pearson) (lit f0_7) then "strong"
  else "very strong".

(** [p < 0.05], the test of significance used throughout. *)
Definition significant (p_value : float) : bool := flt p_value (lit f0_05).

(** [generate_statistical_summary]: whether the report says that review
    length matters. *)
Definition length_matters (pearson_correlation pearson_p_value : float) : bool :=
  fgt (fabs pearson_correlation) (lit f0_1) && flt pearson_p_value (lit f0_05).

(** [perform_hypothesis_test]: the warning about small samples. *)
Definition small_sample_warning (positive negative : nat) : bool :=
  (positive <? 30) || (negative <? 30).

(** [generate_statistical_summary]: the statement on confidence. *)
Definition adequate_sample (positive negative : nat) : bool :=
  (30 <=? positive) && (30 <=? negative).

Definition statistical_power (positive negative : nat) : string :=
  if 100 <? positive `min` negative then "High" else "Moderate".

Definition effect_rank (label : string) : nat :=
  if decide (label = "negligible") then 0
  else if decide (label = "small") then 1
  else if decide (label = "medium") then 2 else 3.

(** ** Comparisons *)

Lemma num_ltb_lt p q : num_ltb (Fin p) (Fin q) = true ↔ (p < q)%Q.
Proof.
  unfold num_ltb. cbn [num_leb]. rewrite negb_true_iff. split.
  - intros Hle. apply Qnot_le_lt. intros Hq%Qle_bool_iff. congruence.
  - intros Hlt. apply not_true_is_false. intros Hq%Qle_bool_iff. lra.
Qed.

Lemma num_ltb_ge p q : num_ltb (Fin p) (Fin q) = false ↔ (q <= p)%Q.
Proof.
  unfold num_ltb. cbn [num_leb]. rewrite negb_false_iff. apply Qle_bool_iff.
Qed.


Lemma flt_fin p q : flt (lit p) (lit q) = true ↔ (p < q)%Q.
Proof. apply num_ltb_lt. Qed.

Lemma flt_fin_false p q : flt (lit p) (lit q) = false ↔ (q <= p)%Q.
Proof. apply num_ltb_ge. Qed.

Lemma fabs_fin q : fabs (Real (Fin q)) = lit (Qabs q).
Proof. done. Qed.

Lemma effect_rank_le label : effect_rank label ≤ 3.
Proof. unfold effect_rank. repeat case_decide; lia. Qed.

(** The comparisons of a proof state, as inequalities on rationals. *)
Ltac orders :=
  repeat match goal with
    | H : flt (lit _) (lit _) = true |- _ => apply flt_fin in H
    | H : flt (lit _) (lit _) = false |- _ => apply flt_fin_false in H
    end;
  unfold f0_05, f0_1, f0_2, f0_3, f0_5, f0_7, f0_8 in *.

(** ** Theorems *)

(** X11. The effect-size label never goes down when the size of the effect
    goes up: for two values of Cohen's d, finite or infinite, with
    [abs(a) <= abs(b)], the label of [a] is at most that of [b] in the
    order negligible, small, medium, large. *)
Theorem effect_interpretation_monotone (a b : Number) :
  num_leb (number_abs a) (number_abs b) = true →
  effect_rank (effect_interpretation (Real a)) ≤ effect_rank (effect_interpretation (Real b)).
Proof.
  intros Hle.
  assert (∀ x, x = PosInf ∨ x = NegInf → effect_interpretation (Real x) = "large") as Hinf.
  { by intros x [-> | ->]. }
  destruct b as [q| |]; [|rewrite (Hinf PosInf) by auto; apply effect_rank_le
                         |rewrite (Hinf NegInf) by auto; apply effect_rank_le].
  destruct a as [p| |]; [|done..].
  cbn [number_abs num_leb] in Hle. apply Qle_bool_iff in Hle.
  unfold effect_interpretation. rewrite !fabs_fin.
  destruct (flt (lit (Qabs p)) (lit f0_2)) eqn:Hp2, (flt (lit (Qabs p)) (lit f0_5)) eqn:Hp5,
    (flt (lit (Qabs p)) (lit f0_8)) eqn:Hp8, (flt (lit (Qabs q)) (lit f0_2)) eqn:Hq2,
    (flt (lit (Qabs q)) (lit f0_5)) eqn:Hq5, (flt (lit (Qabs q)) (lit f0_8)) eqn:Hq8;
    try (vm_compute; lia); exfalso; orders; lra.
Qed.

Lemma effect_interpretation_monotone_witness :
  effect_rank (effect_interpretation (Real (Fin (1 # 10))))
  ≤ effect_rank (effect_interpretation (Real (Fin (-1)))).
Proof. apply (effect_interpretation_monotone (Fin (1 # 10)) (Fin (-1))). reflexivity. Defined.

(** X12. An effect size is called large exactly when it is nan or its
    absolute value is 0.8 or more: a Cohen's d that could not be computed,
    nan, is reported as a large effect. *)
Theorem effect_interpretation_large (cohens_d : float) :
  effect_interpretation cohens_d = "large" ↔
  cohens_d = Nan ∨ ∃ x, cohens_d = Real x ∧ num_leb (Fin f0_8) (number_abs x) = true.
Proof.
  destruct cohens_d as [[q| |]|].
  - unfold effect_interpretation. rewrite !fabs_fin. cbn [number_abs num_leb]. split.
    + intros Hl. right. exists (Fin q). split; [done|]. cbn [number_abs num_leb].
      apply Qle_bool_iff.
      destruct (flt (lit (Qabs q)) (lit f0_2)) eqn:H2; [done|].
      destruct (flt (lit (Qabs q)) (lit f0_5)) eqn:H5; [done|].
      destruct (flt (lit (Qabs q)) (lit f0_8)) eqn:H8; [done|].
      by apply flt_fin_false in H8.
    + intros [?|(x & [= <-] & Hx)]; [done|]. cbn [number_abs num_leb] in Hx.
      apply Qle_bool_iff in Hx.
      destruct (flt (lit (Qabs q)) (lit f0_2)) eqn:H2; [exfalso; orders; lra|].
      destruct (flt (lit (Qabs q)) (lit f0_5)) eqn:H5; [exfalso; orders; lra|].
      destruct (flt (lit (Qabs q)) (lit f0_8)) eqn:H8; [exfalso; orders; lra|].
      done.
  - split; [|done]. intros _. right. by exists PosInf.
  - split; [|done]. intros _. right. by exists NegInf.
  - split; [|done]. intros _. by left.
Qed.

(** X13. For a significant p-value, the label of the correlation and the
    sentence of the summary disagree, the correlation not being called
    negligible while the summary says that review length does not matter,
    exactly when the correlation is nan or its absolute value is the float
    0.1 itself: the label tests [abs(r) < 0.1], the summary [abs(r) > 0.1]. *)
Theorem summary_disagrees_with_strength (r p : float) :
  significant p = true →
  (correlation_strength r ≠ "negligible" ∧ length_matters r p = false) ↔
  (r = Nan ∨ ∃ q, r = Real (Fin q) ∧ (Qabs q == f0_1)%Q).
Proof.
  unfold significant, length_matters. intros ->. rewrite andb_true_r.
  destruct r as [[q| |]|].
  - unfold correlation_strength, fgt. rewrite !fabs_fin. split.
    + intros [Hs Hm]. right. exists q. split; [done|].
      destruct (flt (lit (Qabs q)) (lit f0_1)) eqn:H1; [done|].
      orders. lra.
    + intros [?|(q' & [= <-] & Hq)]; [done|].
      assert (flt (lit (Qabs q)) (lit f0_1) = false) as ->.
      { apply flt_fin_false. lra. }
      split.
      * by repeat case_match.
      * apply flt_fin_false. lra.
  - split; [by intros [_ ?]|]. intros [?|(q & ? & _)]; done.
  - split; [by intros [_ ?]|]. intros [?|(q & ? & _)]; done.
  - split; [by left|]. by intros _.
Qed.

Lemma summary_disagrees_with_strength_witness :
  (correlation_strength (lit f0_1) ≠ "negligible" ∧ length_matters (lit f0_1) (lit 0) = false) ↔
  (lit f0_1 = Nan ∨ ∃ q, lit f0_1 = Real (Fin q) ∧ (Qabs q == f0_1)%Q).
Proof. apply (summary_disagrees_with_strength (lit f0_1) (lit 0)). reflexivity. Defined.

(** X14. The two statements about sample size agree: the hypothesis test
    warns of a small sample exactly when the summary does not call the
    samples adequate, and the summary calls the power High only for
    adequate samples. *)
Theorem sample_size_statements (positive negative : nat) :
  small_sample_warning positive negative = negb (adequate_sample positive negative) ∧
  (statistical_power positive negative = "High" →
   adequate_sample positive negative = true).
Proof.
  unfold small_sample_warning, adequate_sample, statistical_power. split.
  - destruct (Nat.ltb_spec positive 30), (Nat.ltb_spec negative 30),
      (Nat.leb_spec 30 positive), (Nat.leb_spec 30 negative); try done; lia.
  - destruct (Nat.ltb_spec 100 (positive `min` negative)); [|done]. intros _.
    apply andb_true_iff. split; apply Nat.leb_le; lia.
Qed.

End Statistics.

(** * Part IV: the ingestion pipeline

    The methods of [PlayStoreDataIngestion] around the cleaning: what they
    ask of the outside world (the file system, Cloud Storage, BigQuery, the
    terminal), and in which order.  Logging is left out: the [logging]
    module does not raise. *)
Module Pipeline.

(** A call to the outside world.  The text of a printed line is not kept. *)
Inductive Call :=
  | ReadCsv (file_path : string)
  | NewStorageClient (project : string)
  | NewBigQueryClient (project : string)
  | Upload (bucket blob : string) (content : Ingestion.DataFrame)
  | CreateDataset (dataset_id : string)
  | LoadTableFromUri (gcs_uri table_id : string)
  | LoadJobResult (table_id : string)
  | GetTable (table_id : string)
  | Query (sql : string)
  | QueryResult (sql : string)
  | Print.

(** An exception: one that the cleaning raised, or one that a call raised. *)
Inductive Failure :=
  | Cleaning (e : Ingestion.Exn)
  | External (c : Call).

(** The outside world: whether a call raises, given the calls made before
    it; the table that [pd.read_csv] finds in a file; whether a path
    exists; an environment variable. *)
Record World := mkWorld {
  raises : list Call → Call → bool;
  csv : string → Ingestion.DataFrame;
  path_exists : string → bool;
  environ_get : string → option string
}.

(** A run: from the calls made so far to a result and the calls made. *)
Definition IO (A : Type) : Type := list Call → (A + Failure) * list Call.

Definition ret {A} (a : A) : IO A := λ t, (inl a, t).
Definition raise {A} (e : Failure) : IO A := λ t, (inr e, t).
Definition bind {A B} (m : IO A) (k : A → IO B) : IO B :=
  λ t, match m t with
       | (inl a, t') => k a t'
       | (inr e, t') => (inr e, t')
       end.

Notation "x <- m ;; k" := (bind m (λ x, k))
  (at level 100, m at next level, right associativity).
Notation "m ;;; k" := (bind m (λ _, k))
  (at level 100, right associativity).

(** [try: m except Exception as e: handler]. *)
Definition try_except {A} (m : IO A) (handler : Failure → IO A) : IO A :=
  λ t, match m t with
       | (inl a, t') => (inl a, t')
       | (inr e, t') => handler e t'
       end.

Fixpoint for_each {A} (l : list A) (body : A → IO unit) : IO unit :=
  match l with
  | [] => ret tt
  | x :: rest => body x ;;; for_each rest body
  end.

(** The object: [self.project_id], [self.bucket_name], [self.dataset_name]. *)
Record Self := mkSelf {
  project_id : string;
  bucket_name : string;
  dataset_name : string
}.

Section Methods.
Context `{Ingestion.PyLib}.

(** The world, and what [datetime.now()] reads during the cleaning. *)
Variable w : World.
Variable now : Z.

Definition call (c : Call) : IO unit :=
  λ t, (if raises w t c then inr (External c) else inl tt, t ++ [c]).

(** [self.clean_dataframe(df)], on the table just read: the table of the
    object it returns. *)
Definition clean (df : Ingestion.DataFrame) : IO Ingestion.DataFrame :=
  match Ingestion.clean_dataframe now 0 [df] with
  | (Ingestion.Ok r, h) =>
      match h !! r with
      | Some d => ret d
      | None => raise (Cleaning Ingestion.ReferenceError)
      end
  | (Ingestion.Raise e, _) => raise (Cleaning e)
  end.

(** [__init__]. *)
Definition init (project : string) : IO unit :=
  call (NewStorageClient project) ;;;
  call (NewBigQueryClient project).

(** [load_and_clean_data]; its handler logs and raises again. *)
Definition load_and_clean_data (file_path : string) : IO Ingestion.DataFrame :=
  call (ReadCsv file_path) ;;;
  let df := csv w file_path in
  df_clean <- clean df ;;
  ret df_clean.

(** [upload_to_gcs]. *)
Definition upload_to_gcs (self : Self) (df : Ingestion.DataFrame) (blob_name : string)
    : IO unit :=
  call (Upload (bucket_name self) blob_name df).

(** [create_bigquery_dataset]. *)
Definition create_bigquery_dataset (self : Self) : IO unit :=
  let dataset_id := project_id self +:+ "." +:+ dataset_name self in
  call (CreateDataset dataset_id).

(** [load_to_bigquery]. *)
Definition load_to_bigquery (self : Self) (gcs_uri table_name : string) : IO unit :=
  create_bigquery_dataset self ;;;
  let table_id :=
    project_id self +:+ "." +:+ dataset_name self +:+ "." +:+ table_name in
  call (LoadTableFromUri gcs_uri table_id) ;;;
  call (LoadJobResult table_id) ;;;
  call (GetTable table_id).

(** The checks, each with its name and its query.  The star of [COUNT] is
    written as a string of its own. *)
Definition quality_checks (table_id : string) : list (string * string) :=
  [ ("Total Row Count",
     "SELECT COUNT(" +:+ "*" +:+ ") as count FROM `" +:+ table_id +:+ "`");
    ("Null Review Text Count",
     "SELECT COUNT(" +:+ "*" +:+ ") as count FROM `" +:+ table_id
       +:+ "` WHERE review_text IS NULL");
    ("Rating Distribution",
     "SELECT rating, COUNT(" +:+ "*" +:+ ") as count FROM `" +:+ table_id
       +:+ "` GROUP BY rating ORDER BY rating");
    ("Sentiment Distribution",
     "SELECT sentiment, COUNT(" +:+ "*" +:+ ") as count FROM `" +:+ table_id
       +:+ "` GROUP BY sentiment");
    ("Average Review Length",
     "SELECT AVG(review_length) as avg_length FROM `" +:+ table_id +:+ "`") ].

(** [validate_data_quality]: a check that fails is logged, and the loop
    goes on.  Reading the rows of a result is part of [QueryResult]. *)
Definition validate_data_quality (self : Self) (table_name : string) : IO unit :=
  let table_id :=
    project_id self +:+ "." +:+ dataset_name self +:+ "." +:+ table_name in
  for_each (quality_checks table_id) (λ check,
    try_except
      (call (Query check.2) ;;; call (QueryResult check.2))
      (λ e, ret tt)).

(** [run_pipeline]; its handler logs and raises again. *)
Definition run_pipeline (self : Self) (csv_file_path : string) : IO unit :=
  (* Step 1: Load and clean data *)
  df_clean <- load_and_clean_data csv_file_path ;;
  (* Step 2: Upload to GCS *)
  let blob_name := "raw_data/google_play_reviews_cleaned.csv" in
  upload_to_gcs self df_clean blob_name ;;;
  (* Step 3: Load to BigQuery *)
  let gcs_uri := "gs://" +:+ bucket_name self +:+ "/" +:+ blob_name in
  let table_name := "raw_reviews" in
  load_to_bigquery self gcs_uri table_name ;;;
  (* Step 4: Validate data quality *)
  validate_data_quality self table_name ;;;
  (* Print summary *)
  call Print ;;; call Print ;;; call Print ;;; call Print ;;;
  call Print ;;; call Print ;;; call Print ;;; call Print.

(** A value that [if not ...] takes for false. *)
Definition truthy (v : option string) : bool :=
  match v with Some (String _ _) => true | _ => false end.

(** [main]. *)
Definition main : IO unit :=
  let PROJECT_ID := "your-gcp-project-id" in
  let BUCKET_NAME := "your-bucket-name" in
  let DATASET_NAME := "play_store_analysis" in
  let CSV_FILE_PATH := "../data/google_play_store_reviews.csv" in
  if negb (path_exists w CSV_FILE_PATH) then
    call Print ;;; call Print ;;; call Print ;;; call Print ;;; call Print
  else if negb (truthy (environ_get w "GOOGLE_APPLICATION_CREDENTIALS")) then
    call Print ;;; call Print ;;; call Print
  else
    try_except
      (init PROJECT_ID ;;;
       run_pipeline (mkSelf PROJECT_ID BUCKET_NAME DATASET_NAME) CSV_FILE_PATH ;;;
       call Print ;;; call Print)
      (λ e, call Print ;;; call Print).

End Methods.

(** ** The calls of a run *)

Section Traces.
Context `{Ingestion.PyLib}.
Variable w : World.
Variable now : Z.

(** [traces P Q m]: whatever was called before, the calls that [m] adds all
    satisfy [P], and a value it returns satisfies [Q]. *)
Definition traces (P : Call → Prop) {A} (Q : A → Prop) (m : IO A) : Prop :=
  ∀ t, ∃ tr, (m t).2 = t ++ tr ∧ Forall P tr ∧ ∀ a, (m t).1 = inl a → Q a.

Lemma traces_ret P {A} (Q : A → Prop) a : Q a → traces P Q (ret a).
Proof.
  intros HQ t. exists []. rewrite app_nil_r. split_and!; [done..|].
  by intros a' [= <-].
Qed.

Lemma traces_raise P {A} (Q : A → Prop) e : traces P Q (raise e).
Proof. intros t. exists []. rewrite app_nil_r. by split_and!. Qed.

Lemma traces_call (P : Call → Prop) c : P c → traces P (λ _, True) (call w c).
Proof. intros HP t. exists [c]. split_and!; [done| |done]. by apply Forall_singleton. Qed.

Lemma traces_bind P {A B} (Q : A → Prop) (R : B → Prop) (m : IO A) (k : A → IO B) :
  traces P Q m → (∀ a, Q a → traces P R (k a)) → traces P R (bind m k).
Proof.
  intros Hm Hk t. destruct (Hm t) as (tr & Ht & HP & HQ). unfold bind.
  destruct (m t) as [[a|e] t1]; cbn [fst snd] in *; subst t1.
  - destruct (Hk a (HQ a eq_refl) (t ++ tr)) as (tr' & Ht' & HP' & HR).
    exists (tr ++ tr'). rewrite app_assoc. split_and!; [done| |done].
    by apply Forall_app.
  - exists tr. by split_and!.
Qed.

Lemma traces_try P {A} (Q : A → Prop) (m : IO A) (handler : Failure → IO A) :
  traces P Q m → (∀ e, traces P Q (handler e)) → traces P Q (try_except m handler).
Proof.
  intros Hm Hh t. destruct (Hm t) as (tr & Ht & HP & HQ). unfold try_except.
  destruct (m t) as [[a|e] t1]; cbn [fst snd] in *; subst t1.
  - exists tr. by split_and!.
  - destruct (Hh e (t ++ tr)) as (tr' & Ht' & HP' & HR).
    exists (tr ++ tr'). rewrite app_assoc. split_and!; [done| |done].
    by apply Forall_app.
Qed.

Lemma traces_for_each P {A} (l : list A) (body : A → IO unit) :
  (∀ x, traces P (λ _, True) (body x)) → traces P (λ _, True) (for_each l body).
Proof.
  intros Hb. induction l as [|x l IH]; [by apply traces_ret|].
  cbn [for_each]. eapply traces_bind; [apply Hb|]. by intros _ _.
Qed.

Lemma traces_any P {A} (Q : A → Prop) (m : IO A) :
  traces P Q m → traces P (λ _, True) m.
Proof.
  intros Hm t. destruct (Hm t) as (tr & Ht & HP & _). exists tr. by split_and!.
Qed.

(** The cleaning calls nothing, and what it returns is a cleaned table. *)
Lemma traces_clean P df : traces P Ingestion.cleaned (clean now df).
Proof.
  unfold clean.
  destruct (Ingestion.clean_dataframe now 0 [df]) as [[r|e] h] eqn:Hrun;
    [|apply traces_raise].
  destruct (Cleaning.clean_dataframe_ok_cleaned now 0 [df] r h Hrun) as (d & -> & Hd).
  by apply traces_ret.
Qed.

Lemma traces_validate P self table_name :
  (∀ q, P (Query q)) → (∀ q, P (QueryResult q)) →
  traces P (λ _, True) (validate_data_quality w self table_name).
Proof.
  intros HQ HR. unfold validate_data_quality. cbn zeta.
  apply traces_for_each. intros check. apply traces_try.
  - eapply traces_bind; [by apply traces_call|]. intros _ _. by apply traces_call.
  - intros e. by apply traces_ret.
Qed.

(** An upload of [run_pipeline]: to the bucket and blob of the cleaned
    reviews, and of a cleaned table. *)
Definition upload_ok (self : Self) (c : Call) : Prop :=
  match c with
  | Upload b n d =>
      b = bucket_name self ∧ n = "raw_data/google_play_reviews_cleaned.csv" ∧
      Ingestion.cleaned d
  | _ => True
  end.

Lemma traces_run_pipeline self csv_file_path :
  traces (upload_ok self) (λ _, True) (run_pipeline w now self csv_file_path).
Proof.
  unfold run_pipeline, load_and_clean_data, upload_to_gcs, load_to_bigquery,
    create_bigquery_dataset.
  eapply traces_bind.
  { eapply traces_bind; [by apply traces_call|]. intros _ _. cbn zeta.
    eapply traces_bind; [apply traces_clean|]. intros d Hd. apply traces_ret, Hd. }
  intros d Hd. cbn zeta.
  eapply traces_bind; [by apply traces_call|]. intros _ _.
  eapply traces_bind.
  { eapply traces_bind; [by apply traces_call|]. intros _ _.
    eapply traces_bind; [by apply traces_call|]. intros _ _.
    eapply traces_bind; [by apply traces_call|]. intros _ _. by apply traces_call. }
  intros _ _.
  eapply traces_bind; [by apply traces_validate|]. intros _ _.
  repeat (eapply traces_bind; [by apply traces_call|]; intros _ _).
  by apply traces_call.
Qed.

End Traces.

(** ** Runs that return *)

Definition queries (t : list Call) : list string :=
  omap (λ c, match c with Query q => Some q | _ => None end) t.

Definition query_call (c : Call) : Prop :=
  match c with Query _ | QueryResult _ => True | _ => False end.

Lemma io_bind_assoc {A B C} (m : IO A) (f : A → IO B) (k : B → IO C) t :
  bind (bind m f) k t = bind m (λ x, bind (f x) k) t.
Proof. unfold bind. by destruct (m t) as [[a|e] t1]. Qed.

Lemma call_step w {B} c (k : unit → IO B) t b :
  (bind (call w c) k t).1 = inl b → bind (call w c) k t = k tt (t ++ [c]).
Proof. unfold bind, call. by destruct (raises w t c). Qed.

Lemma check_run w q t :
  ∃ tq,
    try_except (call w (Query q) ;;; call w (QueryResult q)) (λ e, ret tt) t
    = (inl tt, t ++ Query q :: tq) ∧
    Forall query_call tq ∧ queries tq = [].
Proof.
  unfold try_except, bind, call, ret.
  destruct (raises w t (Query q)).
  - exists []. by split_and!.
  - exists [QueryResult q]. rewrite <- app_assoc.
    destruct (raises w (t ++ [Query q]) (QueryResult q));
      (split_and!; [done|by repeat constructor|done]).
Qed.

Lemma checks_run w (checks : list (string * string)) t :
  ∃ tv,
    for_each checks (λ check,
      try_except (call w (Query check.2) ;;; call w (QueryResult check.2))
                 (λ e, ret tt)) t
    = (inl tt, t ++ tv) ∧
    Forall query_call tv ∧ queries tv = checks.*2.
Proof.
  revert t. induction checks as [|[name q] checks IH]; intros t.
  - exists []. by rewrite app_nil_r.
  - cbn [for_each snd]. unfold bind at 1.
    destruct (check_run w q t) as (tq & -> & Hq & Hs).
    destruct (IH (t ++ Query q :: tq)) as (tv & -> & Hv & Hsv).
    exists (Query q :: tq ++ tv). rewrite <- app_assoc. split_and!; [done| |].
    + constructor; [done|]. by apply Forall_app.
    + rewrite fmap_cons. unfold queries in *. cbn [omap list_omap].
      rewrite omap_app, Hs, Hsv. done.
Qed.

Lemma validate_step w {B} self table_name (k : unit → IO B) t :
  ∃ tv,
    bind (validate_data_quality w self table_name) k t = k tt (t ++ tv) ∧
    Forall query_call tv ∧
    queries tv
    = (quality_checks
         (project_id self +:+ "." +:+ dataset_name self +:+ "." +:+ table_name)).*2.
Proof.
  unfold validate_data_quality. cbn zeta.
  edestruct checks_run as (tv & Hrun & Hq & Hs). exists tv.
  split_and!; [|done..]. unfold bind at 1. by rewrite Hrun.
Qed.

Lemma clean_step `{Ingestion.PyLib} now {B} df (k : Ingestion.DataFrame → IO B) t b :
  (bind (clean now df) k t).1 = inl b →
  ∃ d, Ingestion.cleaned d ∧ bind (clean now df) k t = k d t.
Proof.
  unfold bind at 1 2, clean.
  destruct (Ingestion.clean_dataframe now 0 [df]) as [[r|e] h] eqn:Hrun; [|done].
  destruct (Cleaning.clean_dataframe_ok_cleaned now 0 [df] r h Hrun) as (d & -> & Hd).
  intros _. by exists d.
Qed.

(** A small world for the examples: every call succeeds. *)
Definition calm (table : Ingestion.DataFrame) : World :=
  {| raises := λ _ _, false; csv := λ _, table;
     path_exists := λ _, true; environ_get := λ _, Some "key.json" |}.


Definition offline : World :=
  {| raises := λ _ _, false; csv := λ _, [];
     path_exists := λ _, false; environ_get := λ _, None |}.

Definition project : Self :=
  {| project_id := "p"; bucket_name := "b"; dataset_name := "play_store_analysis" |}.

(** ** Theorems *)

(** X15. [validate_data_quality] runs each of its five checks, in their
    order, and returns, whatever BigQuery answers: an exception of a query
    ends that check only.  It asks nothing else of the outside world. *)
Theorem validate_data_quality_runs_every_check w self table_name t :
  ∃ tv,
    validate_data_quality w self table_name t = (inl tt, t ++ tv) ∧
    Forall query_call tv ∧
    queries tv
    = (quality_checks
         (project_id self +:+ "." +:+ dataset_name self +:+ "." +:+ table_name)).*2.
Proof. unfold validate_data_quality. cbn zeta. apply checks_run. Qed.

(** X16. Whatever the outside world does, a table that [run_pipeline]
    uploads is a cleaned one: every upload it makes goes to the bucket of
    the object, under the blob name of the cleaned reviews, and holds a
    table with one review, rating and sentiment column whose cells are all
    valid. *)
Theorem run_pipeline_uploads_cleaned `{Ingestion.PyLib} w now self csv_file_path t :
  ∃ tr, (run_pipeline w now self csv_file_path t).2 = t ++ tr ∧
    ∀ b n d, Upload b n d ∈ tr →
      b = bucket_name self ∧ n = "raw_data/google_play_reviews_cleaned.csv" ∧
      Ingestion.cleaned d.
Proof.
  destruct (traces_run_pipeline w now self csv_file_path t) as (tr & Ht & HP & _).
  exists tr. split; [done|]. intros b n d Hin.
  rewrite Forall_forall in HP. exact (HP _ Hin).
Qed.



(** X18. A run of [run_pipeline] that returns has made these calls, in this
    order: it read the file, uploaded the cleaned table, created the
    dataset, loaded into the table [raw_reviews] of the object's project
    and dataset the very blob it uploaded, waited for the job, fetched the
    table, ran the five quality checks and printed the eight lines of the
    summary. *)
Theorem run_pipeline_calls `{Ingestion.PyLib} w now self csv_file_path t :
  (run_pipeline w now self csv_file_path t).1 = inl tt →
  ∃ d tv,
    Ingestion.cleaned d ∧ Forall query_call tv ∧
    queries tv
    = (quality_checks
         (project_id self +:+ "." +:+ dataset_name self +:+ ".raw_reviews")).*2 ∧
    (run_pipeline w now self csv_file_path t).2
    = t ++ [ ReadCsv csv_file_path;
             Upload (bucket_name self) "raw_data/google_play_reviews_cleaned.csv" d;
             CreateDataset (project_id self +:+ "." +:+ dataset_name self);
             LoadTableFromUri
               ("gs://" +:+ bucket_name self +:+ "/raw_data/google_play_reviews_cleaned.csv")
               (project_id self +:+ "." +:+ dataset_name self +:+ ".raw_reviews");
             LoadJobResult (project_id self +:+ "." +:+ dataset_name self +:+ ".raw_reviews");
             GetTable (project_id self +:+ "." +:+ dataset_name self +:+ ".raw_reviews") ]
        ++ tv ++ replicate 8 Print.
Proof.
  unfold run_pipeline, load_and_clean_data, upload_to_gcs, load_to_bigquery,
    create_bigquery_dataset. cbn zeta. intros Hok.
  rewrite io_bind_assoc in Hok |- *.
  rewrite (call_step _ _ _ _ _ Hok) in Hok |- *.
  rewrite io_bind_assoc in Hok |- *.
  destruct (clean_step _ _ _ _ _ Hok) as (d & Hd & Heq). rewrite Heq in Hok |- *.
  clear Heq. unfold bind at 1 in Hok. unfold bind at 1. unfold ret at 1 in Hok.
  unfold ret at 1.
  do 5 (rewrite ?io_bind_assoc in Hok |- *; rewrite (call_step _ _ _ _ _ Hok) in Hok |- *).
  match type of Hok with (bind (validate_data_quality _ _ _) ?k ?t0).1 = _ =>
    destruct (validate_step w self "raw_reviews" k t0) as (tv & Heq & Hq & Hs) end.
  rewrite Heq in Hok |- *. clear Heq.
  do 7 (rewrite (call_step _ _ _ _ _ Hok) in Hok |- *).
  exists d, tv. split_and!; [done..|].
  unfold call. cbn [snd]. rewrite <- !app_assoc. done.
Qed.

Lemma run_pipeline_calls_witness :
  ∃ d tv,
    Ingestion.cleaned d ∧ Forall query_call tv ∧
    queries tv
    = (quality_checks
         (project_id project +:+ "." +:+ dataset_name project +:+ ".raw_reviews")).*2 ∧
    (run_pipeline (H := Ingestion.ascii_lib) (calm Ingestion.sample) 0 project "reviews.csv" []).2
    = [] ++ [ ReadCsv "reviews.csv";
             Upload (bucket_name project) "raw_data/google_play_reviews_cleaned.csv" d;
             CreateDataset (project_id project +:+ "." +:+ dataset_name project);
             LoadTableFromUri
               ("gs://" +:+ bucket_name project
                  +:+ "/raw_data/google_play_reviews_cleaned.csv")
               (project_id project +:+ "." +:+ dataset_name project +:+ ".raw_reviews");
             LoadJobResult
               (project_id project +:+ "." +:+ dataset_name project +:+ ".raw_reviews");
             GetTable
               (project_id project +:+ "." +:+ dataset_name project +:+ ".raw_reviews") ]
        ++ tv ++ replicate 8 Print.
Proof.
  apply (run_pipeline_calls (H := Ingestion.ascii_lib) (calm Ingestion.sample) 0 project
           "reviews.csv" []).
  vm_compute. reflexivity.
Defined.

(** X19. [main] stays on the machine when it cannot run: if the CSV file
    does not exist, or [GOOGLE_APPLICATION_CREDENTIALS] is unset or empty,
    it only prints; it reads no file, makes no client and calls neither
    Cloud Storage nor BigQuery. *)
Theorem main_offline `{Ingestion.PyLib} w now t :
  path_exists w "../data/google_play_store_reviews.csv" = false ∨
  truthy (environ_get w "GOOGLE_APPLICATION_CREDENTIALS") = false →
  ∃ n, (main w now t).2 = t ++ replicate n Print.
Proof.
  assert (∀ m : IO unit, traces (λ c, c = Print) (λ _, True) m →
            ∃ n, (m t).2 = t ++ replicate n Print) as Hprints.
  { intros m Hm. destruct (Hm t) as (tr & -> & HP & _). exists (length tr).
    f_equal. clear -HP. induction HP as [|c tr -> _ IH]; [done|].
    cbn [length replicate]. by rewrite <- IH. }
  assert (∀ c, c = Print → traces (λ c, c = Print) (λ _ : unit, True) (call w c)) as Hcall.
  { intros c Hc. by apply traces_call. }
  intros Hoff. unfold main. cbn zeta.
  destruct (path_exists w _).
  - destruct Hoff as [?|Hcred]; [done|]. rewrite Hcred. cbn [negb]. apply Hprints.
    repeat (eapply traces_bind; [by apply Hcall|]; intros _ _). by apply Hcall.
  - cbn [negb]. apply Hprints.
    repeat (eapply traces_bind; [by apply Hcall|]; intros _ _). by apply Hcall.
Qed.

Lemma main_offline_witness :
  ∃ n, (main (H := Ingestion.ascii_lib) offline 0 []).2 = [] ++ replicate n Print.
Proof.
  apply (main_offline (H := Ingestion.ascii_lib) offline 0 []). left. reflexivity.
Defined.
End Pipeline.
